(** * Provider Sync: the [update_auth_providers] management command

    A shallow embedding of
    [pontoon/base/management/commands/update_auth_providers.py].

    The command reads six pairs of settings and, for every pair that is
    fully configured, creates or updates the matching [SocialApp] row and
    makes sure the row is attached to at least one site.  The database
    tables and the standard output are threaded explicitly through a small
    state-and-exception monad; a raised exception keeps the state reached
    so far, as Django's autocommit does. *)

From stdpp Require Import base option gmap sets list strings pretty.

Open Scope string_scope.
Open Scope Z_scope.

(** ** Data model *)

(** A row of the [SocialApp] table: the scalar columns the command writes,
    one more column it never mentions ([key], blank by default), and the
    many-to-many [sites] relation as the set of the site primary keys. *)
Record SocialApp := mkSocialApp {
  provider : string;
  name : string;
  client_id : string;
  secret : string;
  key : string;
  sites : gset Z
}.

(** A model instance held in a Python variable: the primary key ([None]
    until the first [save]) and the scalar attributes. *)
Record Instance := mkInstance {
  pk : option Z;
  i_provider : string;
  i_name : string;
  i_client_id : string;
  i_secret : string;
  i_key : string
}.

(** [django.conf.settings], restricted to what the command reads. *)
Record Settings := mkSettings {
  FXA_CLIENT_ID : option string;
  FXA_SECRET_KEY : option string;
  GITHUB_CLIENT_ID : option string;
  GITHUB_SECRET_KEY : option string;
  GITLAB_CLIENT_ID : option string;
  GITLAB_SECRET_KEY : option string;
  GOOGLE_CLIENT_ID : option string;
  GOOGLE_SECRET_KEY : option string;
  KEYCLOAK_CLIENT_ID : option string;
  KEYCLOAK_CLIENT_SECRET : option string;
  DISCORD_CLIENT_ID : option string;
  DISCORD_SECRET_KEY : option string;
  SITE_ID : Z
}.

(** The outside world: the [SocialApp] table keyed by primary key, the
    primary keys of the [Site] table, and the lines written to stdout. *)
Record World := mkWorld {
  socialapps : gmap Z SocialApp;
  site_table : gset Z;
  stdout : list string
}.

(** The exceptions the command can meet. [ObjectDoesNotExist m] stands for
    [m.DoesNotExist], a subclass of [ObjectDoesNotExist]. *)
Inductive exn :=
  | ObjectDoesNotExist (model : string)
  | MultipleObjectsReturned (model : string)
  | KeyError (k : string).

Inductive result (A : Type) :=
  | Ok (a : A)
  | Raise (e : exn).
Arguments Ok {A} a.
Arguments Raise {A} e.

#[global] Instance exn_eq_dec : EqDecision exn.
Proof. solve_decision. Defined.

#[global] Instance result_eq_dec `{EqDecision A} : EqDecision (result A).
Proof. solve_decision. Defined.

(** ** The command monad *)

Definition M (A : Type) : Type := World → World * result A.

#[global] Instance M_ret : MRet M := λ A a w, (w, Ok a).
#[global] Instance M_bind : MBind M := λ A B f m w,
  match m w with
  | (w', Ok a) => f a w'
  | (w', Raise e) => (w', Raise e)
  end.

Definition raise {A} (e : exn) : M A := λ w, (w, Raise e).

Definition is_ObjectDoesNotExist (e : exn) : bool :=
  match e with ObjectDoesNotExist _ => true | _ => false end.

(** [try: body except ObjectDoesNotExist: handler]. The handler starts in
    the state the body had reached when it raised. *)
Definition try_except_ObjectDoesNotExist {A} (body handler : M A) : M A :=
  λ w, match body w with
       | (w', Ok a) => (w', Ok a)
       | (w', Raise e) =>
           if is_ObjectDoesNotExist e then handler w' else (w', Raise e)
       end.

(** ** Provider identifiers *)

(** Modelled from the spec: the [id] attributes of the six allauth provider
    classes, which the command imports and [src/] does not contain; the
    spec names [provider_key="github"] for GitHub, the others are the
    provider slugs in the same style. *)
Definition FXA_PROVIDER_ID : string := "fxa".
Definition GITHUB_PROVIDER_ID : string := "github".
Definition GITLAB_PROVIDER_ID : string := "gitlab".
Definition GOOGLE_PROVIDER_ID : string := "google".
Definition KEYCLOAK_PROVIDER_ID : string := "keycloak".
Definition DISCORD_PROVIDER_ID : string := "discord".

(** ** The ORM operations the command calls *)

Definition has_provider (p : string) (row : Z * SocialApp) : Prop :=
  provider row.2 = p.

#[global] Instance has_provider_dec p row : Decision (has_provider p row).
Proof. unfold has_provider. apply _. Defined.

Definition load (k : Z) (r : SocialApp) : Instance :=
  mkInstance (Some k) (provider r) (name r) (client_id r) (secret r) (key r).

(** [SocialApp.objects.get(provider=p)]: the one matching row, or
    [DoesNotExist] for none and [MultipleObjectsReturned] for several. *)
Definition SocialApp_objects_get (p : string) : M Instance := λ w,
  match map_to_list (filter (has_provider p) (socialapps w)) with
  | [] => (w, Raise (ObjectDoesNotExist "SocialApp"))
  | [(k, r)] => (w, Ok (load k r))
  | _ :: _ :: _ => (w, Raise (MultipleObjectsReturned "SocialApp"))
  end.

(** [setattr(app, k, v)] for the column names of the model; any other name
    becomes a plain Python attribute that no query ever sees. *)
Definition setattr (app : Instance) (k v : string) : Instance :=
  if decide (k = "provider") then
    mkInstance (pk app) v (i_name app) (i_client_id app) (i_secret app) (i_key app)
  else if decide (k = "name") then
    mkInstance (pk app) (i_provider app) v (i_client_id app) (i_secret app) (i_key app)
  else if decide (k = "client_id") then
    mkInstance (pk app) (i_provider app) (i_name app) v (i_secret app) (i_key app)
  else if decide (k = "secret") then
    mkInstance (pk app) (i_provider app) (i_name app) (i_client_id app) v (i_key app)
  else if decide (k = "key") then
    mkInstance (pk app) (i_provider app) (i_name app) (i_client_id app) (i_secret app) v
  else app.

(** [for k, v in data.items(): setattr(app, k, v)] *)
Definition setattrs (data : list (string * string)) (app : Instance) : Instance :=
  foldl (λ a kv, setattr a kv.1 kv.2) app data.

(** The constructor call with [data] as keyword arguments: every column
    blank, then the arguments. *)
Definition SocialApp_new (data : list (string * string)) : Instance :=
  setattrs data (mkInstance None "" "" "" "" "").

(** [data[k]] *)
Definition getitem (data : list (string * string)) (k : string) : M string :=
  match list_find (λ kv, kv.1 = k) data with
  | Some (_, (_, v)) => mret v
  | None => raise (KeyError k)
  end.

(** The primary key the table hands to the next inserted row: one more
    than the largest in use, 1 for an empty table. *)
Definition max_pk (t : gmap Z SocialApp) : Z :=
  map_fold (λ k _ acc, Z.max k acc) 0 t.

Definition next_pk (t : gmap Z SocialApp) : Z := max_pk t + 1.

Definition row_sites (t : gmap Z SocialApp) (k : Z) : gset Z :=
  match t !! k with Some r => sites r | None => ∅ end.

(** [app.save()]: writes the scalar columns, under the instance's primary
    key or, for a new instance, under a new one that the instance then
    carries. The [sites] relation lives in its own table and is not
    written. *)
Definition save (app : Instance) : M Instance := λ w,
  let k := match pk app with Some k => k | None => next_pk (socialapps w) end in
  let row := mkSocialApp (i_provider app) (i_name app) (i_client_id app)
               (i_secret app) (i_key app) (row_sites (socialapps w) k) in
  (mkWorld (<[k := row]> (socialapps w)) (site_table w) (stdout w),
   Ok (mkInstance (Some k) (i_provider app) (i_name app) (i_client_id app)
         (i_secret app) (i_key app))).

(** [self.stdout.write(line)] *)
Definition stdout_write (line : string) : M unit := λ w,
  (mkWorld (socialapps w) (site_table w) (stdout w ++ [line]), Ok ()).

(** ["%s" % app.pk] *)
Definition str_pk (o : option Z) : string :=
  match o with Some k => pretty k | None => "None" end.

(** [app.sites.count()]. Both branches of [update_provider] save the
    instance first, so it always has a primary key here. *)
Definition sites_count (app : Instance) : M nat := λ w,
  (w, Ok (match pk app with
          | Some k => size (row_sites (socialapps w) k)
          | None => 0%nat
          end)).

(** [Site.objects.get(pk=k)]; a site is represented by its primary key. *)
Definition Site_objects_get (k : Z) : M Z := λ w,
  if decide (k ∈ site_table w) then (w, Ok k)
  else (w, Raise (ObjectDoesNotExist "Site")).

(** [app.sites.add(site)] *)
Definition sites_add (app : Instance) (site : Z) : M unit := λ w,
  match pk app with
  | Some k =>
      (mkWorld (alter (λ r, mkSocialApp (provider r) (name r) (client_id r)
                              (secret r) (key r) (sites r ∪ {[site]}))
                  k (socialapps w))
         (site_table w) (stdout w), Ok ())
  | None => (w, Ok ())
  end.

(** ** The command *)

Definition Updated_line (k : Z) : string :=
  "Updated existing authentication provider (pk=" +:+ pretty k +:+ ")".
Definition Created_line (k : Z) : string :=
  "Created new authentication provider (pk=" +:+ pretty k +:+ ")".

(** The [try]/[except] block of [update_provider] (lines 34-47). *)
Definition upsert (data : list (string * string)) : M Instance :=
  try_except_ObjectDoesNotExist
    (p ← getitem data "provider";
     app ← SocialApp_objects_get p;
     app ← save (setattrs data app);
     stdout_write ("Updated existing authentication provider (pk="
                   +:+ str_pk (pk app) +:+ ")");;
     mret app)
    (app ← save (SocialApp_new data);
     stdout_write ("Created new authentication provider (pk="
                   +:+ str_pk (pk app) +:+ ")");;
     mret app).

(** The site attachment of [update_provider] (lines 49-53). *)
Definition ensure_site (s : Settings) (app : Instance) : M unit :=
  n ← sites_count app;
  if decide (n = 0%nat) then
    default_site ← Site_objects_get (SITE_ID s);
    sites_add app default_site
  else mret ().

Definition update_provider (s : Settings) (data : list (string * string)) : M unit :=
  app ← upsert data;
  ensure_site s app.

(** [dict(name=..., provider=..., client_id=..., secret=...)] *)
Definition dict (n p c k : string) : list (string * string) :=
  [("name", n); ("provider", p); ("client_id", c); ("secret", k)].

(** One [if ... is not None and ... is not None:] block of [handle]. *)
Definition configured (n p : string) (cid sec : option string)
    (s : Settings) : M unit :=
  match cid, sec with
  | Some c, Some k => update_provider s (dict n p c k)
  | _, _ => mret ()
  end.

Definition handle (s : Settings) : M unit :=
  configured "FxA" FXA_PROVIDER_ID (FXA_CLIENT_ID s) (FXA_SECRET_KEY s) s;;
  configured "GitHub" GITHUB_PROVIDER_ID (GITHUB_CLIENT_ID s) (GITHUB_SECRET_KEY s) s;;
  configured "GitLab" GITLAB_PROVIDER_ID (GITLAB_CLIENT_ID s) (GITLAB_SECRET_KEY s) s;;
  configured "Google" GOOGLE_PROVIDER_ID (GOOGLE_CLIENT_ID s) (GOOGLE_SECRET_KEY s) s;;
  configured "Keycloak" KEYCLOAK_PROVIDER_ID (KEYCLOAK_CLIENT_ID s)
    (KEYCLOAK_CLIENT_SECRET s) s;;
  configured "Discord" DISCORD_PROVIDER_ID (DISCORD_CLIENT_ID s)
    (DISCORD_SECRET_KEY s) s.

(** ** The six provider slots, as the spec lists them *)

Inductive Provider := FxA | GitHub | GitLab | Google | Keycloak | Discord.

#[global] Instance Provider_eq_dec : EqDecision Provider.
Proof. solve_decision. Defined.

Definition all_providers : list Provider :=
  [FxA; GitHub; GitLab; Google; Keycloak; Discord].

Definition provider_id (p : Provider) : string :=
  match p with
  | FxA => FXA_PROVIDER_ID
  | GitHub => GITHUB_PROVIDER_ID
  | GitLab => GITLAB_PROVIDER_ID
  | Google => GOOGLE_PROVIDER_ID
  | Keycloak => KEYCLOAK_PROVIDER_ID
  | Discord => DISCORD_PROVIDER_ID
  end.

Definition display_name (p : Provider) : string :=
  match p with
  | FxA => "FxA"
  | GitHub => "GitHub"
  | GitLab => "GitLab"
  | Google => "Google"
  | Keycloak => "Keycloak"
  | Discord => "Discord"
  end.

Definition setting_client_id (s : Settings) (p : Provider) : option string :=
  match p with
  | FxA => FXA_CLIENT_ID s
  | GitHub => GITHUB_CLIENT_ID s
  | GitLab => GITLAB_CLIENT_ID s
  | Google => GOOGLE_CLIENT_ID s
  | Keycloak => KEYCLOAK_CLIENT_ID s
  | Discord => DISCORD_CLIENT_ID s
  end.

Definition setting_secret (s : Settings) (p : Provider) : option string :=
  match p with
  | FxA => FXA_SECRET_KEY s
  | GitHub => GITHUB_SECRET_KEY s
  | GitLab => GITLAB_SECRET_KEY s
  | Google => GOOGLE_SECRET_KEY s
  | Keycloak => KEYCLOAK_CLIENT_SECRET s
  | Discord => DISCORD_SECRET_KEY s
  end.

(** Both values of the pair are set (are not [None]). *)
Definition present (s : Settings) (p : Provider) : bool :=
  bool_decide (is_Some (setting_client_id s p) ∧ is_Some (setting_secret s p)).

(** The block of [handle] for slot [p]. *)
Definition sync_one (s : Settings) (p : Provider) : M unit :=
  configured (display_name p) (provider_id p)
    (setting_client_id s p) (setting_secret s p) s.

(** The blocks of the slots in [l], one after the other. *)
Fixpoint sync_all (s : Settings) (l : list Provider) : M unit :=
  match l with
  | [] => mret ()
  | p :: l' => sync_one s p;; sync_all s l'
  end.

(** The rows of the table [t] with provider key [p]. *)
Definition rows (p : string) (t : gmap Z SocialApp) : gmap Z SocialApp :=
  filter (has_provider p) t.

(** ** Sample inputs

    The scenarios of the spec: only GitHub configured, default site 1. *)
Definition settings_github (secret_key : string) (site_id : Z) : Settings :=
  mkSettings None None (Some "abc") (Some secret_key) None None None None
    None None None None site_id.

(** FxA and GitHub configured. *)
Definition settings_fxa_github (site_id : Z) : Settings :=
  mkSettings (Some "fx") (Some "fs") (Some "abc") (Some "def") None None None
    None None None None None site_id.

(** An empty [SocialApp] table, the [Site] table holding the keys [T]. *)
Definition world_empty (T : gset Z) : World := mkWorld ∅ T [].

(** A table with one row, under primary key 5. *)
Definition world_one (r : SocialApp) (T : gset Z) : World :=
  mkWorld {[5 := r]} T [].

(** ** Vocabulary of the statements *)

(** The three outcomes of [SocialApp.objects.get(provider=p)]. *)
Inductive lookup_outcome (p : string) (t : gmap Z SocialApp) : Prop :=
  | lookup_none : rows p t = ∅ → lookup_outcome p t
  | lookup_one k r : rows p t = {[k := r]} → lookup_outcome p t
  | lookup_several : (2 ≤ size (rows p t))%nat → lookup_outcome p t.

(** What lines 49-53 leave in the [sites] relation of a row that had [st],
    and how they end, with [T] the primary keys of the [Site] table. *)
Definition attach (s : Settings) (T st : gset Z) : gset Z :=
  if decide (st = ∅) then
    if decide (SITE_ID s ∈ T) then {[SITE_ID s]} else ∅
  else st.

Definition attach_result (s : Settings) (T st : gset Z) : result unit :=
  if decide (st = ∅) then
    if decide (SITE_ID s ∈ T) then Ok () else Raise (ObjectDoesNotExist "Site")
  else Ok ().

(** The four ways the block of slot [p] can go, from the world [w]. *)
Inductive step_spec (s : Settings) (p : Provider) (w : World) :
    World → result unit → Prop :=
  | step_skipped :
      present s p = false → step_spec s p w w (Ok ())
  | step_updated c k k0 r :
      setting_client_id s p = Some c → setting_secret s p = Some k →
      rows (provider_id p) (socialapps w) = {[k0 := r]} →
      step_spec s p w
        (mkWorld (<[k0 := mkSocialApp (provider_id p) (display_name p) c k (key r)
                             (attach s (site_table w) (sites r))]> (socialapps w))
           (site_table w) (stdout w ++ [Updated_line k0]))
        (attach_result s (site_table w) (sites r))
  | step_created c k :
      setting_client_id s p = Some c → setting_secret s p = Some k →
      rows (provider_id p) (socialapps w) = ∅ →
      step_spec s p w
        (mkWorld (<[next_pk (socialapps w) :=
                      mkSocialApp (provider_id p) (display_name p) c k ""
                        (attach s (site_table w) ∅)]> (socialapps w))
           (site_table w) (stdout w ++ [Created_line (next_pk (socialapps w))]))
        (attach_result s (site_table w) ∅)
  | step_ambiguous c k :
      setting_client_id s p = Some c → setting_secret s p = Some k →
      (2 ≤ size (rows (provider_id p) (socialapps w)))%nat →
      step_spec s p w w (Raise (MultipleObjectsReturned "SocialApp")).

(** The row [r'] is what a run may have made of the row [r]: same provider
    key, same [key] column, and a [sites] relation that only ever gained
    the default site, and that only if it was empty. *)
Definition row_kept (s : Settings) (r r' : SocialApp) : Prop :=
  provider r' = provider r ∧ key r' = key r ∧
  sites r ⊆ sites r' ∧ sites r' ⊆ sites r ∪ {[SITE_ID s]} ∧
  (sites r ≠ ∅ → sites r' = sites r).

Definition evolves (s : Settings) (w w' : World) : Prop :=
  ∀ (k : Z) (r : SocialApp), socialapps w !! k = Some r →
    ∃ r', socialapps w' !! k = Some r' ∧ row_kept s r r'.

(** The scalar columns of [r] are the candidate record of slot [p]. *)
Definition configured_row (s : Settings) (p : Provider) (r : SocialApp) : Prop :=
  provider r = provider_id p ∧ name r = display_name p ∧
  setting_client_id s p = Some (client_id r) ∧
  setting_secret s p = Some (secret r).

(** [line] is the report for slot [p] in a run from table [t] to table
    [t']: the one row with the slot's key in [t'] carries the candidate
    record, and the line names its primary key, as updated when [t] held
    the row and as created when [t] held no row with that key. *)
Definition reported (s : Settings) (t t' : gmap Z SocialApp)
    (p : Provider) (line : string) : Prop :=
  ∃ (k : Z) (r' : SocialApp),
    rows (provider_id p) t' = {[k := r']} ∧ configured_row s p r' ∧
    (((∃ r, rows (provider_id p) t = {[k := r]}) ∧ line = Updated_line k) ∨
     (rows (provider_id p) t = ∅ ∧ line = Created_line k)).

(** The configured slots of [l], in the order of [l]. *)
Definition configured_slots (s : Settings) (l : list Provider) : list Provider :=
  filter (λ p, present s p = true) l.

(** Slot [p] has nothing left to do on table [t]: it is not configured, or
    its one row carries the candidate record and has a site. *)
Definition settled (s : Settings) (p : Provider) (t : gmap Z SocialApp) : Prop :=
  present s p = false ∨
  ∃ (k : Z) (r : SocialApp),
    rows (provider_id p) t = {[k := r]} ∧ configured_row s p r ∧ sites r ≠ ∅.

(** Slot [p] raises [e] on table [t] and site keys [T], and will again:
    its key is on several rows, or its one row carries the candidate
    record, has no site, and the default site does not exist. *)
Definition stuck (s : Settings) (p : Provider) (t : gmap Z SocialApp)
    (T : gset Z) (e : exn) : Prop :=
  present s p = true ∧
  ((e = MultipleObjectsReturned "SocialApp" ∧
    (2 ≤ size (rows (provider_id p) t))%nat) ∨
   (e = ObjectDoesNotExist "Site" ∧ (SITE_ID s ∉ T) ∧
    ∃ (k : Z) (r : SocialApp),
      rows (provider_id p) t = {[k := r]} ∧ configured_row s p r ∧ sites r = ∅)).

Definition is_Updated_line (line : string) : Prop :=
  ∃ k : Z, line = Updated_line k.


(** The row of slot [p] after a block that went through: the candidate
    record with the values [c] and [k], the [key] column as it was, and
    the sites as they were, or the default site when there were none. *)
Definition synced_row (s : Settings) (p : Provider) (c k old_key : string)
    (old_sites : gset Z) : SocialApp :=
  mkSocialApp (provider_id p) (display_name p) c k old_key
    (if decide (old_sites = ∅) then {[SITE_ID s]} else old_sites).

(** * Basic facts *)

Close Scope string_scope.

Lemma handle_sync_all s w : handle s w = sync_all s all_providers w.
Proof.
  unfold handle, all_providers.
  cbn [sync_all]. unfold sync_one.
  cbn [display_name provider_id setting_client_id setting_secret].
  unfold mbind, M_bind.
  repeat match goal with
  | |- context [configured ?n ?p ?c ?k s ?v] =>
      is_var v; destruct (configured n p c k s v) as [? [[]|?]]; try reflexivity
  end.
Qed.

Lemma getitem_dict n p c k : getitem (dict n p c k) "provider" = mret p.
Proof. reflexivity. Qed.

Lemma setattrs_dict n p c k app :
  setattrs (dict n p c k) app = mkInstance (pk app) p n c k (i_key app).
Proof. reflexivity. Qed.

(** ** Primary keys *)

Lemma max_pk_ge (t : gmap Z SocialApp) (k : Z) (r : SocialApp) : t !! k = Some r → k ≤ max_pk t.
Proof.
  unfold max_pk. revert k r.
  apply (map_fold_weak_ind
           (λ acc (m : gmap Z SocialApp), ∀ k r, m !! k = Some r → k ≤ acc)).
  - intros k r. by rewrite lookup_empty.
  - intros i x m acc _ IH k r. rewrite lookup_insert_Some.
    intros [[<- _]|[_ Hk]]; [lia|]. specialize (IH _ _ Hk). lia.
Qed.

Lemma next_pk_fresh (t : gmap Z SocialApp) : t !! next_pk t = None.
Proof.
  destruct (t !! next_pk t) as [r|] eqn:E; [|done].
  apply max_pk_ge in E. unfold next_pk in E. lia.
Qed.

(** ** Rows of one provider key *)

Lemma rows_lookup p (t : gmap Z SocialApp) (k : Z) (r : SocialApp) :
  rows p t !! k = Some r ↔ t !! k = Some r ∧ provider r = p.
Proof. unfold rows. by rewrite map_lookup_filter_Some. Qed.

Lemma rows_empty_lookup p (t : gmap Z SocialApp) (k : Z) (r : SocialApp) :
  rows p t = ∅ → t !! k = Some r → provider r ≠ p.
Proof.
  intros He Hk Hp.
  assert (rows p t !! k = Some r) as H by (by apply rows_lookup).
  by rewrite He, lookup_empty in H.
Qed.

Lemma rows_singleton_lookup p (t : gmap Z SocialApp) (k : Z) (r : SocialApp) :
  rows p t = {[k := r]} → t !! k = Some r ∧ provider r = p.
Proof. intros He. apply rows_lookup. by rewrite He, lookup_singleton_eq. Qed.

(** Writing a row with provider key [q] leaves the rows of every other key
    alone, provided the row it replaces, if any, also had key [q]. *)
Lemma rows_insert_other p q (t : gmap Z SocialApp) (k : Z) (r : SocialApp) :
  provider r = q → p ≠ q →
  (∀ r0, t !! k = Some r0 → provider r0 = q) →
  rows p (<[k := r]> t) = rows p t.
Proof.
  intros Hr Hne Hold. apply map_eq. intros i. apply option_eq. intros x.
  rewrite !rows_lookup, lookup_insert_Some.
  split.
  - intros [[[<- <-]|[Hik Hi]] Hp]; [congruence|done].
  - intros [Hi Hp]. split; [|done]. right. split; [|done].
    intros <-. apply Hold in Hi. congruence.
Qed.

(** Writing a row with provider key [p] over a row of that key, or under a
    new primary key, when [k] is the only place the key occurs. *)
Lemma rows_insert_same p (t : gmap Z SocialApp) (k : Z) (r : SocialApp) :
  provider r = p →
  (∀ i r0, t !! i = Some r0 → provider r0 = p → i = k) →
  rows p (<[k := r]> t) = {[k := r]}.
Proof.
  intros Hr Honly. apply map_eq. intros i. apply option_eq. intros x.
  rewrite rows_lookup, lookup_insert_Some, lookup_singleton_Some.
  split.
  - intros [[[<- <-]|[Hik Hi]] Hp]; [done|]. destruct Hik. symmetry. eauto.
  - intros [<- <-]. split; [by left|done].
Qed.

Lemma lookup_outcome_total p t : lookup_outcome p t.
Proof.
  destruct (map_to_list (rows p t)) as [|[k r] [|kr l]] eqn:E.
  - apply lookup_none. by apply map_to_list_empty_iff.
  - apply (lookup_one _ _ k r).
    rewrite <-(list_to_map_to_list (rows p t)), E. done.
  - apply lookup_several. rewrite <-length_map_to_list, E. simpl. lia.
Qed.

Lemma get_none p w :
  rows p (socialapps w) = ∅ →
  SocialApp_objects_get p w = (w, Raise (ObjectDoesNotExist "SocialApp")).
Proof.
  intros He. unfold SocialApp_objects_get. fold (rows p (socialapps w)).
  by rewrite He, map_to_list_empty.
Qed.

Lemma get_one p w k r :
  rows p (socialapps w) = {[k := r]} →
  SocialApp_objects_get p w = (w, Ok (load k r)).
Proof.
  intros He. unfold SocialApp_objects_get. fold (rows p (socialapps w)).
  by rewrite He, map_to_list_singleton.
Qed.

Lemma get_several p w :
  (2 ≤ size (rows p (socialapps w)))%nat →
  SocialApp_objects_get p w = (w, Raise (MultipleObjectsReturned "SocialApp")).
Proof.
  intros Hs. unfold SocialApp_objects_get. fold (rows p (socialapps w)).
  rewrite <-length_map_to_list in Hs.
  destruct (map_to_list (rows p (socialapps w))) as [|[k r] [|kr l]];
    simpl in Hs; [lia|lia|done].
Qed.

(** ** The two halves of [update_provider] on a candidate dict *)

Lemma upsert_found n p c k w k0 r :
  rows p (socialapps w) = {[k0 := r]} →
  upsert (dict n p c k) w =
    (mkWorld (<[k0 := mkSocialApp p n c k (key r) (sites r)]> (socialapps w))
       (site_table w) (stdout w ++ [Updated_line k0]),
     Ok (mkInstance (Some k0) p n c k (key r))).
Proof.
  intros He. destruct (rows_singleton_lookup _ _ _ _ He) as [Hk _].
  unfold upsert, try_except_ObjectDoesNotExist, mbind, M_bind.
  rewrite getitem_dict. unfold mret at 1, M_ret at 1.
  rewrite (get_one _ _ _ _ He), setattrs_dict.
  unfold save, stdout_write, row_sites, load, mret, M_ret. simpl.
  by rewrite Hk.
Qed.

Lemma upsert_missing n p c k w :
  rows p (socialapps w) = ∅ →
  upsert (dict n p c k) w =
    (mkWorld (<[next_pk (socialapps w) := mkSocialApp p n c k "" ∅]> (socialapps w))
       (site_table w) (stdout w ++ [Created_line (next_pk (socialapps w))]),
     Ok (mkInstance (Some (next_pk (socialapps w))) p n c k "")).
Proof.
  intros He.
  unfold upsert, try_except_ObjectDoesNotExist, mbind, M_bind.
  rewrite getitem_dict. unfold mret at 1, M_ret at 1.
  rewrite (get_none _ _ He). simpl is_ObjectDoesNotExist. cbv iota.
  unfold SocialApp_new. rewrite setattrs_dict.
  unfold save, stdout_write, row_sites, mret, M_ret. simpl.
  by rewrite next_pk_fresh.
Qed.

Lemma upsert_several n p c k w :
  (2 ≤ size (rows p (socialapps w)))%nat →
  upsert (dict n p c k) w = (w, Raise (MultipleObjectsReturned "SocialApp")).
Proof.
  intros Hs.
  unfold upsert, try_except_ObjectDoesNotExist, mbind, M_bind.
  rewrite getitem_dict. unfold mret at 1, M_ret at 1.
  by rewrite (get_several _ _ Hs).
Qed.

Lemma ensure_site_attached s app w k r :
  pk app = Some k → socialapps w !! k = Some r → sites r ≠ ∅ →
  ensure_site s app w = (w, Ok ()).
Proof.
  intros Hpk Hk Hne.
  unfold ensure_site, sites_count, row_sites, mbind, M_bind. rewrite Hpk, Hk.
  destruct (decide (size (sites r) = 0%nat)) as [Hz|_]; [|done].
  by apply size_empty_inv, leibniz_equiv in Hz.
Qed.

Lemma ensure_site_add s app w k r :
  pk app = Some k → socialapps w !! k = Some r → sites r = ∅ →
  SITE_ID s ∈ site_table w →
  ensure_site s app w =
    (mkWorld (<[k := mkSocialApp (provider r) (name r) (client_id r) (secret r)
                        (key r) {[SITE_ID s]}]> (socialapps w))
       (site_table w) (stdout w), Ok ()).
Proof.
  intros Hpk Hk He Hin.
  unfold ensure_site, sites_count, row_sites, mbind, M_bind. rewrite Hpk, Hk, He.
  rewrite size_empty. simpl.
  unfold Site_objects_get. rewrite decide_True by done.
  unfold sites_add. rewrite Hpk. do 2 f_equal.
  apply map_eq. intros i. destruct (decide (i = k)) as [->|Hik].
  - rewrite lookup_alter_eq, lookup_insert_eq, Hk. simpl. rewrite He.
    by rewrite (left_id_L ∅ (∪)).
  - by rewrite lookup_alter_ne, lookup_insert_ne.
Qed.

Lemma ensure_site_missing s app w k r :
  pk app = Some k → socialapps w !! k = Some r → sites r = ∅ →
  SITE_ID s ∉ site_table w →
  ensure_site s app w = (w, Raise (ObjectDoesNotExist "Site")).
Proof.
  intros Hpk Hk He Hin.
  unfold ensure_site, sites_count, row_sites, mbind, M_bind. rewrite Hpk, Hk, He.
  rewrite size_empty. simpl.
  unfold Site_objects_get. by rewrite decide_False.
Qed.

Lemma ensure_site_attach s app w k r :
  pk app = Some k → socialapps w !! k = Some r →
  ensure_site s app w =
    (mkWorld (<[k := mkSocialApp (provider r) (name r) (client_id r) (secret r)
                        (key r) (attach s (site_table w) (sites r))]> (socialapps w))
       (site_table w) (stdout w),
     attach_result s (site_table w) (sites r)).
Proof.
  intros Hpk Hk. unfold attach, attach_result.
  destruct (decide (sites r = ∅)) as [He|Hne].
  - destruct (decide (SITE_ID s ∈ site_table w)) as [Hin|Hout].
    + by apply ensure_site_add.
    + rewrite (ensure_site_missing s app w k r) by done.
      f_equal. destruct w as [t T out]. simpl in *. f_equal.
      symmetry. apply insert_id. rewrite Hk. f_equal. destruct r. simpl in *.
      by subst.
  - rewrite (ensure_site_attached s app w k r) by done.
    f_equal. destruct w as [t T out]. simpl in *. f_equal.
    symmetry. apply insert_id. rewrite Hk. f_equal. by destruct r.
Qed.

Lemma update_provider_found s n p c k w k0 r :
  rows p (socialapps w) = {[k0 := r]} →
  update_provider s (dict n p c k) w =
    (mkWorld (<[k0 := mkSocialApp p n c k (key r)
                         (attach s (site_table w) (sites r))]> (socialapps w))
       (site_table w) (stdout w ++ [Updated_line k0]),
     attach_result s (site_table w) (sites r)).
Proof.
  intros He. unfold update_provider, mbind, M_bind.
  rewrite (upsert_found _ _ _ _ _ _ _ He).
  erewrite ensure_site_attach; [|done|simpl; apply lookup_insert_eq].
  simpl. by rewrite insert_insert_eq.
Qed.

Lemma update_provider_missing s n p c k w :
  rows p (socialapps w) = ∅ →
  update_provider s (dict n p c k) w =
    (mkWorld (<[next_pk (socialapps w) :=
                  mkSocialApp p n c k "" (attach s (site_table w) ∅)]> (socialapps w))
       (site_table w) (stdout w ++ [Created_line (next_pk (socialapps w))]),
     attach_result s (site_table w) ∅).
Proof.
  intros He. unfold update_provider, mbind, M_bind.
  rewrite (upsert_missing _ _ _ _ _ He).
  erewrite ensure_site_attach; [|done|simpl; apply lookup_insert_eq].
  simpl. by rewrite insert_insert_eq.
Qed.

Lemma update_provider_several s n p c k w :
  (2 ≤ size (rows p (socialapps w)))%nat →
  update_provider s (dict n p c k) w =
    (w, Raise (MultipleObjectsReturned "SocialApp")).
Proof.
  intros Hs. unfold update_provider, mbind, M_bind.
  by rewrite (upsert_several _ _ _ _ _ Hs).
Qed.

(** ** One slot of [handle] *)

Lemma provider_id_inj p q : provider_id p = provider_id q → p = q.
Proof. destruct p, q; intros H; first [reflexivity | discriminate H]. Qed.

Lemma present_true s p :
  present s p = true ↔
  ∃ c k, setting_client_id s p = Some c ∧ setting_secret s p = Some k.
Proof.
  unfold present. rewrite bool_decide_eq_true. split.
  - intros [[c Hc] [k Hk]]. eauto.
  - intros (c & k & -> & ->). split; eauto.
Qed.

Lemma present_false s p :
  present s p = false ↔
  setting_client_id s p = None ∨ setting_secret s p = None.
Proof.
  unfold present. rewrite bool_decide_eq_false.
  destruct (setting_client_id s p) as [c|], (setting_secret s p) as [k|];
    (split; [intros H | intros [H|H] [[? ?] [? ?]]; discriminate]).
  - destruct H. split; eauto.
  - by right.
  - by left.
  - by left.
Qed.

Lemma sync_one_present s p c k :
  setting_client_id s p = Some c → setting_secret s p = Some k →
  sync_one s p = update_provider s (dict (display_name p) (provider_id p) c k).
Proof. intros Hc Hk. unfold sync_one, configured. by rewrite Hc, Hk. Qed.

Lemma sync_one_absent s p :
  present s p = false → sync_one s p = mret ().
Proof.
  rewrite present_false. unfold sync_one, configured.
  intros [->| ->]; [done|]. by destruct (setting_client_id s p).
Qed.

Lemma sync_one_spec s p w :
  step_spec s p w (sync_one s p w).1 (sync_one s p w).2.
Proof.
  destruct (present s p) eqn:Hp.
  - apply present_true in Hp as (c & k & Hc & Hk).
    rewrite (sync_one_present _ _ _ _ Hc Hk).
    destruct (lookup_outcome_total (provider_id p) (socialapps w)) as [He|k0 r He|Hs].
    + rewrite (update_provider_missing _ _ _ _ _ _ He). by eapply step_created.
    + rewrite (update_provider_found _ _ _ _ _ _ _ _ He). by eapply step_updated.
    + rewrite (update_provider_several _ _ _ _ _ _ Hs). by eapply step_ambiguous.
  - rewrite (sync_one_absent _ _ Hp). by apply step_skipped.
Qed.

(** ** What one slot changes and what it keeps *)

Lemma attach_incl s T st : st ⊆ attach s T st.
Proof. unfold attach. repeat case_decide; set_solver. Qed.

Lemma attach_bound s T st : attach s T st ⊆ st ∪ {[SITE_ID s]}.
Proof. unfold attach. repeat case_decide; set_solver. Qed.

Lemma attach_nonempty s T st : st ≠ ∅ → attach s T st = st.
Proof. intros H. unfold attach. by rewrite decide_False. Qed.

Lemma attach_result_Ok s T st :
  attach_result s T st = Ok () → attach s T st ≠ ∅.
Proof.
  unfold attach_result, attach.
  repeat case_decide; first [done | intros _; apply non_empty_singleton_L].
Qed.

Lemma attach_result_Raise s T st e :
  attach_result s T st = Raise e →
  e = (ObjectDoesNotExist "Site") ∧ st = ∅ ∧ (SITE_ID s ∉ T) ∧ attach s T st = ∅.
Proof.
  unfold attach_result, attach. repeat case_decide; try done.
  intros [= <-]. done.
Qed.

Lemma row_kept_refl s r : row_kept s r r.
Proof.
  unfold row_kept. split_and!; [done|done|done|apply union_subseteq_l|done].
Qed.

Lemma row_kept_trans s r1 r2 r3 :
  row_kept s r1 r2 → row_kept s r2 r3 → row_kept s r1 r3.
Proof.
  intros (Hp & Hk & Hi & Hb & Hn) (Hp' & Hk' & Hi' & Hb' & Hn').
  split_and!; [congruence|congruence|by etrans|..].
  - intros x Hx. apply Hb', elem_of_union in Hx as [Hx|Hx].
    + by apply Hb.
    + apply elem_of_union. by right.
  - intros Hne. rewrite Hn' by (rewrite Hn; done). by apply Hn.
Qed.

Lemma evolves_refl s w : evolves s w w.
Proof. intros k r Hk. exists r. split; [done|apply row_kept_refl]. Qed.

Lemma evolves_trans s w1 w2 w3 :
  evolves s w1 w2 → evolves s w2 w3 → evolves s w1 w3.
Proof.
  intros H12 H23 k r Hk.
  destruct (H12 _ _ Hk) as (r2 & Hk2 & Hr2).
  destruct (H23 _ _ Hk2) as (r3 & Hk3 & Hr3).
  exists r3. split; [done|]. by eapply row_kept_trans.
Qed.

Lemma step_site_table s p w w' o :
  step_spec s p w w' o → site_table w' = site_table w.
Proof. by intros []. Qed.

Lemma step_frame s p w w' o q :
  step_spec s p w w' o → q ≠ provider_id p →
  rows q (socialapps w') = rows q (socialapps w).
Proof.
  intros [Hp|c k k0 r Hc Hk He|c k Hc Hk He|c k Hc Hk Hs] Hq; try done; simpl.
  - apply rows_insert_other with (q := provider_id p); [done|done|].
    intros r0 Hr0. apply rows_singleton_lookup in He as [He Hpr]. congruence.
  - apply rows_insert_other with (q := provider_id p); [done|done|].
    intros r0. by rewrite next_pk_fresh.
Qed.

Lemma step_evolves s p w w' o : step_spec s p w w' o → evolves s w w'.
Proof.
  intros [Hp|c k k0 r Hc Hk He|c k Hc Hk He|c k Hc Hk Hs];
    try apply evolves_refl; intros i x Hi; simpl.
  - apply rows_singleton_lookup in He as [He Hpr].
    destruct (decide (i = k0)) as [->|Hne].
    + rewrite lookup_insert_eq. eexists. split; [done|].
      assert (x = r) as -> by congruence.
      unfold row_kept. simpl.
      split; [done|]. split; [done|]. split; [apply attach_incl|].
      split; [apply attach_bound|apply attach_nonempty].
    + rewrite lookup_insert_ne by done. exists x. split; [done|apply row_kept_refl].
  - rewrite lookup_insert_ne.
    + exists x. split; [done|apply row_kept_refl].
    + intros <-. by rewrite next_pk_fresh in Hi.
Qed.

Lemma step_stdout s p w w' o :
  step_spec s p w w' o → ∃ lines : list string, stdout w' = stdout w ++ lines.
Proof.
  intros []; simpl; eauto. all: exists []; by rewrite app_nil_r.
Qed.

(** ** Runs over a list of slots *)

Lemma sync_all_cons s p l w :
  sync_all s (p :: l) w =
    match sync_one s p w with
    | (w1, Ok _) => sync_all s l w1
    | (w1, Raise e) => (w1, Raise e)
    end.
Proof. reflexivity. Qed.

(** A relation between worlds that is reflexive, transitive and kept by
    every slot of [l] is kept by the run over [l]. *)
Lemma sync_all_rel (R : World → World → Prop) s l :
  (∀ w, R w w) →
  (∀ a b c, R a b → R b c → R a c) →
  (∀ p w, p ∈ l → R w (sync_one s p w).1) →
  ∀ w, R w (sync_all s l w).1.
Proof.
  intros Hrefl Htrans. induction l as [|p l IH]; intros Hstep w.
  - apply Hrefl.
  - rewrite sync_all_cons.
    pose proof (Hstep p w (list_elem_of_here _ _)) as H1.
    destruct (sync_one s p w) as [w1 [[]|e]]; simpl in *; [|done].
    eapply Htrans; [exact H1|]. apply IH. intros q v Hq. apply Hstep.
    by apply list_elem_of_further.
Qed.

Lemma sync_all_site_table s l w :
  site_table (sync_all s l w).1 = site_table w.
Proof.
  apply (sync_all_rel (λ a b, site_table b = site_table a)); [done|congruence|].
  intros p v _. eapply step_site_table, sync_one_spec.
Qed.

Lemma sync_all_evolves s l w : evolves s w (sync_all s l w).1.
Proof.
  apply (sync_all_rel (evolves s)).
  - apply evolves_refl.
  - apply evolves_trans.
  - intros p v _. eapply step_evolves, sync_one_spec.
Qed.

(** The rows of a provider key are the same after a run in which no
    configured slot has that key. *)
Lemma sync_all_frame s l w q :
  (∀ p, p ∈ l → present s p = true → provider_id p ≠ q) →
  rows q (socialapps (sync_all s l w).1) = rows q (socialapps w).
Proof.
  revert w. induction l as [|p l IH]; intros w Hq; [done|].
  rewrite sync_all_cons. pose proof (sync_one_spec s p w) as Hs.
  assert (rows q (socialapps (sync_one s p w).1) = rows q (socialapps w)) as H1.
  { destruct (present s p) eqn:Hp.
    - eapply step_frame; [exact Hs|]. intros ->.
      by eapply Hq; [apply list_elem_of_here|..].
    - by rewrite (sync_one_absent _ _ Hp). }
  destruct (sync_one s p w) as [w1 [[]|e]]; simpl in *; [|done].
  rewrite IH; [done|]. intros p' Hp'. apply Hq. by apply list_elem_of_further.
Qed.

(** ** The row a slot leaves behind *)

Lemma elem_of_all_providers p : p ∈ all_providers.
Proof.
  destruct p; unfold all_providers;
    repeat first [apply list_elem_of_here | apply list_elem_of_further].
Qed.

Lemma NoDup_all_providers : NoDup all_providers.
Proof. apply (bool_decide_unpack _). by vm_compute. Qed.

Lemma rows_only_singleton p (t : gmap Z SocialApp) k0 r0 :
  rows p t = {[k0 := r0]} →
  ∀ (i : Z) (r : SocialApp), t !! i = Some r → provider r = p → i = k0.
Proof.
  intros He i r Hi Hp.
  assert (rows p t !! i = Some r) as H by (by apply rows_lookup).
  rewrite He in H. by apply lookup_singleton_Some in H as [-> _].
Qed.

Lemma rows_only_empty p (t : gmap Z SocialApp) k0 :
  rows p t = ∅ →
  ∀ (i : Z) (r : SocialApp), t !! i = Some r → provider r = p → i = k0.
Proof. intros He i r Hi Hp. by destruct (rows_empty_lookup _ _ _ _ He Hi). Qed.

(** After the block of a configured slot that got past the lookup, the
    table holds exactly one row with the slot's provider key, and it
    carries the candidate record. *)
Lemma step_own_row s p w w' o :
  step_spec s p w w' o → present s p = true →
  o ≠ Raise (MultipleObjectsReturned "SocialApp") →
  ∃ k r, rows (provider_id p) (socialapps w') = {[k := r]} ∧
         configured_row s p r ∧
         sites r = attach s (site_table w) (row_sites (socialapps w) k) ∧
         o = attach_result s (site_table w) (row_sites (socialapps w) k).
Proof.
  intros [Hp|c k k0 r Hc Hk He|c k Hc Hk He|c k Hc Hk Hs] Hpr Ho;
    [congruence| | |done]; simpl.
  - eexists k0, _. split.
    { apply rows_insert_same; [done|]. by apply rows_only_singleton with r. }
    apply rows_singleton_lookup in He as [He _].
    unfold row_sites. rewrite He. by split.
  - eexists (next_pk (socialapps w)), _. split.
    { apply rows_insert_same; [done|]. by apply rows_only_empty. }
    unfold row_sites. rewrite next_pk_fresh. by split.
Qed.

(** A run that ends without an exception leaves, for every configured
    slot, exactly one row with the candidate record and a site. *)
Lemma sync_all_ok s l w w' :
  NoDup l → sync_all s l w = (w', Ok ()) →
  ∀ p, p ∈ l → present s p = true →
    ∃ k r, rows (provider_id p) (socialapps w') = {[k := r]} ∧
           configured_row s p r ∧ sites r ≠ ∅.
Proof.
  revert w. induction l as [|q l IH]; intros w Hnd Hrun p Hin Hp.
  { by apply elem_of_nil in Hin. }
  apply NoDup_cons in Hnd as [Hq Hnd]. rewrite sync_all_cons in Hrun.
  pose proof (sync_one_spec s q w) as Hs.
  destruct (sync_one s q w) as [w1 [[]|e]]; simpl in Hs; [|done].
  apply elem_of_cons in Hin as [->|Hin]; [|by eapply IH].
  destruct (step_own_row _ _ _ _ _ Hs Hp) as (k & r & Hr & Hc & Hst & Ho); [done|].
  exists k, r. split; [|split; [done|]].
  - rewrite <-Hr. replace w' with (sync_all s l w1).1 by (by rewrite Hrun).
    apply sync_all_frame. intros p' Hp' _ Heq. apply provider_id_inj in Heq.
    by subst.
  - rewrite Hst. apply attach_result_Ok. by rewrite <-Ho.
Qed.

Lemma sync_all_app s l1 l2 w :
  sync_all s (l1 ++ l2) w =
    match sync_all s l1 w with
    | (w1, Ok _) => sync_all s l2 w1
    | (w1, Raise e) => (w1, Raise e)
    end.
Proof.
  revert w. induction l1 as [|p l1 IH]; intros w; [done|].
  rewrite <-app_comm_cons, !sync_all_cons.
  destruct (sync_one s p w) as [w1 [[]|e]]; [apply IH|done].
Qed.

Lemma attach_result_nonempty s T st : st ≠ ∅ → attach_result s T st = Ok ().
Proof. intros H. unfold attach_result. by rewrite decide_False. Qed.

(** The block of a slot whose one row has a site ends without an
    exception, and what it leaves does not depend on the [Site] table. *)
Lemma sync_one_attached s p (t : gmap Z SocialApp) (out : list string) k0 r :
  rows (provider_id p) t = {[k0 := r]} → sites r ≠ ∅ →
  ∃ t' out', ∀ T,
    sync_one s p (mkWorld t T out) = (mkWorld t' T out', Ok ()).
Proof.
  intros Hr Hne. destruct (present s p) eqn:Hp.
  - apply present_true in Hp as (c & k & Hc & Hk).
    eexists _, _. intros T. rewrite (sync_one_present _ _ _ _ Hc Hk).
    rewrite (update_provider_found s _ _ c k (mkWorld t T out) k0 r) by done.
    simpl. by rewrite attach_nonempty, attach_result_nonempty.
  - exists t, out. intros T. by rewrite (sync_one_absent _ _ Hp).
Qed.

(** A run over slots whose rows all exist, one per key, each with a site:
    it ends without an exception, and neither the table nor the output it
    leaves depends on the [Site] table. *)
Lemma sync_all_attached s l :
  ∀ (t : gmap Z SocialApp) (out : list string),
    (∀ p, p ∈ l → present s p = true →
       ∃ k r, rows (provider_id p) t = {[k := r]} ∧ sites r ≠ ∅) →
    ∃ t' out', ∀ T,
      sync_all s l (mkWorld t T out) = (mkWorld t' T out', Ok ()).
Proof.
  induction l as [|p l IH]; intros t out Hl.
  { exists t, out. done. }
  destruct (present s p) eqn:Hp.
  - destruct (Hl p (list_elem_of_here _ _) Hp) as (k0 & r & Hr & Hne).
    apply present_true in Hp as (c & k & Hc & Hk).
    destruct (IH (<[k0 := mkSocialApp (provider_id p) (display_name p) c k
                            (key r) (sites r)]> t) (out ++ [Updated_line k0]))
      as (t' & out' & Hrun).
    { intros q Hq Hpq.
      destruct (decide (provider_id q = provider_id p)) as [Heq|Hneq].
      - eexists k0, _. split.
        + rewrite Heq. apply rows_insert_same; [done|].
          by apply rows_only_singleton with r.
        + done.
      - destruct (Hl q (list_elem_of_further _ _ _ Hq) Hpq) as (kq & rq & Hrq & Hnq).
        exists kq, rq. split; [|done]. rewrite <-Hrq.
        apply rows_insert_other with (q := provider_id p); [done|done|].
        intros r0 Hr0. apply rows_singleton_lookup in Hr as [Hr Hpr]. congruence. }
    exists t', out'. intros T. rewrite sync_all_cons.
    rewrite (sync_one_present _ _ _ _ Hc Hk).
    rewrite (update_provider_found s _ _ c k (mkWorld t T out) k0 r) by done.
    simpl. rewrite attach_nonempty, attach_result_nonempty by done. apply Hrun.
  - destruct (IH t out) as (t' & out' & Hrun).
    { intros q Hq. apply Hl. by apply list_elem_of_further. }
    exists t', out'. intros T. rewrite sync_all_cons.
    rewrite (sync_one_absent _ _ Hp). apply Hrun.
Qed.

(** ** The report *)

Lemma reported_frame s t t' t0 t0' p line :
  rows (provider_id p) t0 = rows (provider_id p) t →
  rows (provider_id p) t0' = rows (provider_id p) t' →
  reported s t t' p line → reported s t0 t0' p line.
Proof. intros H H' (k & r' & Hr & Hc & Hl). exists k, r'. by rewrite H, H'. Qed.

Lemma step_reported s p w w' o :
  step_spec s p w w' o → present s p = true →
  o ≠ Raise (MultipleObjectsReturned "SocialApp") →
  ∃ line, stdout w' = stdout w ++ [line] ∧
          reported s (socialapps w) (socialapps w') p line.
Proof.
  intros [Hp|c k k0 r Hc Hk He|c k Hc Hk He|c k Hc Hk Hs] Hpr Ho;
    [congruence| | |done]; simpl.
  - eexists. split; [done|]. eexists k0, _. split_and!.
    + apply rows_insert_same; [done|]. by apply rows_only_singleton with r.
    + by split.
    + left. eauto.
  - eexists. split; [done|]. eexists (next_pk (socialapps w)), _. split_and!.
    + apply rows_insert_same; [done|]. by apply rows_only_empty.
    + by split.
    + by right.
Qed.

Lemma step_ambiguous_inv s p w w' :
  step_spec s p w w' (Raise (MultipleObjectsReturned "SocialApp")) → w' = w.
Proof.
  intros Hs. inversion Hs as [Hp|c k k0 r Hc Hk He Hw Ho|c k Hc Hk He Hw Ho|]; [| |done].
  - by apply attach_result_Raise in Ho as [? _].
  - by apply attach_result_Raise in Ho as [? _].
Qed.

(** The lines a run over [l] writes are the reports of the configured
    slots it got through, in the order of [l]: of all of them when the run
    ends without an exception. *)
Lemma sync_all_trace s l :
  NoDup l → ∀ w,
  ∃ (done : list Provider) (lines : list string),
    done `prefix_of` configured_slots s l ∧
    stdout (sync_all s l w).1 = stdout w ++ lines ∧
    Forall2 (λ p line, p ∈ l ∧
               reported s (socialapps w) (socialapps (sync_all s l w).1) p line)
      done lines ∧
    ((sync_all s l w).2 = Ok () → done = configured_slots s l).
Proof.
  unfold configured_slots.
  induction l as [|p l IH]; intros Hnd w.
  { exists [], []. simpl. by rewrite app_nil_r. }
  apply NoDup_cons in Hnd as [Hp Hnd].
  assert (∀ v, rows (provider_id p) (socialapps (sync_all s l v).1)
               = rows (provider_id p) (socialapps v)) as Hlater.
  { intros v. apply sync_all_frame. intros q Hq _ Heq.
    apply provider_id_inj in Heq. by subst. }
  rewrite sync_all_cons. pose proof (sync_one_spec s p w) as Hs.
  destruct (present s p) eqn:Hpr.
  - rewrite filter_cons_True by done.
    destruct (sync_one s p w) as [w1 o1]. simpl in Hs.
    destruct (decide (o1 = Raise (MultipleObjectsReturned "SocialApp"))) as [->|Ho].
    { apply step_ambiguous_inv in Hs as ->. exists [], []. simpl.
      rewrite app_nil_r. split_and!; [apply prefix_nil|done|done|done]. }
    destruct (step_reported _ _ _ _ _ Hs Hpr Ho) as (line & Hout & Hrep).
    destruct o1 as [[]|e].
    + destruct (IH Hnd w1) as (done & lines & Hpre & Hout' & Hall & Hok).
      exists (p :: done), (line :: lines). split_and!.
      * by apply prefix_cons.
      * by rewrite Hout', Hout, <-app_assoc.
      * constructor.
        { split; [apply list_elem_of_here|].
          eapply reported_frame; [done|apply Hlater|exact Hrep]. }
        eapply Forall2_impl; [exact Hall|]. intros q ln [Hq Hr]. split.
        { by apply list_elem_of_further. }
        eapply reported_frame; [|done|exact Hr].
        symmetry. eapply step_frame; [exact Hs|]. intros Heq.
        apply provider_id_inj in Heq. by subst.
      * intros H. by rewrite Hok.
    + exists [p], [line]. simpl. split_and!.
      * apply prefix_cons, prefix_nil.
      * done.
      * constructor; [|constructor]. split; [apply list_elem_of_here|done].
      * done.
  - rewrite filter_cons_False by congruence.
    rewrite (sync_one_absent _ _ Hpr). simpl.
    destruct (IH Hnd w) as (done & lines & Hpre & Hout' & Hall & Hok).
    exists done, lines. split_and!; [done|done| |done].
    eapply Forall2_impl; [exact Hall|]. intros q ln [Hq Hr]. split; [|done].
    by apply list_elem_of_further.
Qed.

(** ** Running again *)

Lemma settled_frame s p t t' :
  rows (provider_id p) t' = rows (provider_id p) t →
  settled s p t → settled s p t'.
Proof. intros H [Hp|Hr]; [by left|right]. by rewrite H. Qed.

Lemma step_Ok_settled s p w w' :
  step_spec s p w w' (Ok ()) → settled s p (socialapps w').
Proof.
  intros Hs. destruct (present s p) eqn:Hp.
  - right. destruct (step_own_row _ _ _ _ _ Hs Hp) as (k & r & Hr & Hc & Hst & Ho);
      [done|].
    exists k, r. split_and!; [done|done|]. rewrite Hst. by apply attach_result_Ok.
  - inversion Hs; subst; first [by left | congruence].
Qed.

Lemma step_Raise_stuck s p w w' e :
  step_spec s p w w' (Raise e) → stuck s p (socialapps w') (site_table w') e.
Proof.
  intros Hs.
  assert (present s p = true) as Hp.
  { inversion Hs; apply present_true; eauto. }
  split; [done|].
  destruct (decide (e = MultipleObjectsReturned "SocialApp")) as [->|He].
  - left. split; [done|]. pose proof (step_ambiguous_inv _ _ _ _ Hs) as ->.
    inversion Hs as [|c k k0 r Hc Hk Hr Hw Ho|c k Hc Hk Hr Hw Ho|]; [| |done].
    + by apply attach_result_Raise in Ho as [? _].
    + by apply attach_result_Raise in Ho as [? _].
  - right.
    destruct (step_own_row _ _ _ _ _ Hs Hp) as (k & r & Hr & Hc & Hst & Ho);
      [congruence|].
    symmetry in Ho. apply attach_result_Raise in Ho as (-> & _ & Hout & Ha).
    rewrite (step_site_table _ _ _ _ _ Hs).
    split_and!; [done|done|]. exists k, r. split_and!; [done|done|congruence].
Qed.

Lemma configured_row_eq s p r c k :
  configured_row s p r →
  setting_client_id s p = Some c → setting_secret s p = Some k →
  mkSocialApp (provider_id p) (display_name p) c k (key r) (sites r) = r.
Proof.
  intros (Hp & Hn & Hc & Hk) Hc' Hk'. destruct r. simpl in *. congruence.
Qed.

Lemma settled_step s p (t : gmap Z SocialApp) T out :
  settled s p t →
  ∃ lines,
    sync_one s p (mkWorld t T out) = (mkWorld t T (out ++ lines), Ok ()) ∧
    Forall is_Updated_line lines ∧
    Forall2 (λ q line, ∃ (k : Z) (r : SocialApp),
               rows (provider_id q) t = {[k := r]} ∧ line = Updated_line k)
      (configured_slots s [p]) lines.
Proof.
  unfold configured_slots. intros [Hp|(k0 & r & Hr & Hc & Hne)].
  - exists []. rewrite (sync_one_absent _ _ Hp), app_nil_r.
    rewrite filter_cons_False by congruence. by split_and!.
  - destruct Hc as (Hpr & Hn & Hc & Hk).
    assert (present s p = true) as Hp by (apply present_true; eauto).
    exists [Updated_line k0].
    rewrite (sync_one_present _ _ _ _ Hc Hk).
    rewrite (update_provider_found s _ _ _ _ (mkWorld t T out) k0 r) by done.
    simpl. rewrite attach_nonempty, attach_result_nonempty by done.
    rewrite filter_cons_True by done. split_and!.
    + do 2 f_equal. apply insert_id.
      apply rows_singleton_lookup in Hr as [-> _]. f_equal.
      destruct r. simpl in *. congruence.
    + repeat constructor. by exists k0.
    + repeat constructor. by exists k0, r.
Qed.

Lemma stuck_step s p (t : gmap Z SocialApp) T out e :
  stuck s p t T e →
  ∃ lines,
    sync_one s p (mkWorld t T out) = (mkWorld t T (out ++ lines), Raise e) ∧
    Forall is_Updated_line lines.
Proof.
  intros [Hp [[-> Hs]|(-> & Hout & k0 & r & Hr & Hc & He)]];
    apply present_true in Hp as (c & k & Hc' & Hk').
  - exists []. rewrite (sync_one_present _ _ _ _ Hc' Hk'), app_nil_r.
    by rewrite update_provider_several.
  - exists [Updated_line k0].
    rewrite (sync_one_present _ _ _ _ Hc' Hk').
    rewrite (update_provider_found s _ _ _ _ (mkWorld t T out) k0 r) by done.
    simpl. unfold attach, attach_result.
    rewrite !(decide_True (P := sites r = ∅)) by done.
    rewrite !(decide_False (P := SITE_ID s ∈ T)) by done. split.
    + do 2 f_equal. apply insert_id.
      apply rows_singleton_lookup in Hr as [-> _]. f_equal.
      rewrite <-He. symmetry. by apply (configured_row_eq s).
    + repeat constructor. by exists k0.
Qed.

(** A run over slots that are all settled changes nothing but the output,
    to which it adds one [Updated] line per configured slot. *)
Lemma settled_run s l (t : gmap Z SocialApp) T :
  Forall (λ p, settled s p t) l → ∀ out,
  ∃ lines,
    sync_all s l (mkWorld t T out) = (mkWorld t T (out ++ lines), Ok ()) ∧
    Forall is_Updated_line lines ∧
    Forall2 (λ q line, ∃ (k : Z) (r : SocialApp),
               rows (provider_id q) t = {[k := r]} ∧ line = Updated_line k)
      (configured_slots s l) lines.
Proof.
  induction 1 as [|p l Hp Hl IH]; intros out.
  { exists []. simpl. rewrite app_nil_r. split_and!; [done|done|constructor]. }
  destruct (settled_step s p t T out Hp) as (l1 & H1 & Hu1 & Hf1).
  destruct (IH (out ++ l1)) as (l2 & H2 & Hu2 & Hf2).
  exists (l1 ++ l2). rewrite sync_all_cons, H1, H2, app_assoc. split_and!.
  - done.
  - by apply Forall_app.
  - change (p :: l) with ([p] ++ l). unfold configured_slots in *.
    rewrite filter_app. by apply Forall2_app.
Qed.

(** What a run leaves: every slot settled when it ended without an
    exception; otherwise the slots before the failing one settled and the
    failing one stuck on the exception raised. *)
Lemma sync_all_leaves s l :
  NoDup l → ∀ w w' o, sync_all s l w = (w', o) →
  match o with
  | Ok _ => Forall (λ p, settled s p (socialapps w')) l
  | Raise e =>
      ∃ l1 p l2, l = l1 ++ p :: l2 ∧
        Forall (λ q, settled s q (socialapps w')) l1 ∧
        stuck s p (socialapps w') (site_table w') e
  end.
Proof.
  induction l as [|p l IH]; intros Hnd w w' o Hrun.
  { injection Hrun as <- <-. constructor. }
  apply NoDup_cons in Hnd as [Hp Hnd]. rewrite sync_all_cons in Hrun.
  pose proof (sync_one_spec s p w) as Hs.
  destruct (sync_one s p w) as [w1 [[]|e1]]; simpl in Hs.
  - assert (settled s p (socialapps w')) as Hset.
    { apply settled_frame with (socialapps w1); [|by eapply step_Ok_settled].
      replace w' with (sync_all s l w1).1 by (by rewrite Hrun).
      apply sync_all_frame. intros q Hq _ Heq. apply provider_id_inj in Heq.
      by subst. }
    specialize (IH Hnd w1 w' o Hrun). destruct o as [[]|e].
    + by constructor.
    + destruct IH as (l1 & q & l2 & -> & Hl1 & Hq).
      exists (p :: l1), q, l2. split_and!; [done|by constructor|done].
  - injection Hrun as <- <-. exists [], p, l. split_and!; [done|constructor|].
    by eapply step_Raise_stuck.
Qed.

(** ** The scenarios of the spec *)

(** Only GitHub configured, default site 1 exists, empty table: one row,
    attached to site 1, reported as created under primary key 1. *)
Example scenario_created :
  handle (settings_github "def" 1) (world_empty {[1]})
  = (mkWorld {[1 := mkSocialApp "github" "GitHub" "abc" "def" "" {[1]}]} {[1]}
       ["Created new authentication provider (pk=1)"%string], Ok ()).
Proof. by vm_compute. Qed.

(** The same again with another secret: the row's secret changes, the
    line says updated, the sites stay. *)
Example scenario_updated :
  handle (settings_github "xyz" 1)
    (handle (settings_github "def" 1) (world_empty {[1]})).1
  = (mkWorld {[1 := mkSocialApp "github" "GitHub" "abc" "xyz" "" {[1]}]} {[1]}
       ["Created new authentication provider (pk=1)"%string;
        "Updated existing authentication provider (pk=1)"%string], Ok ()).
Proof. by vm_compute. Qed.

(** The default site 999 does not exist: the row is written and reported,
    then the site lookup raises. *)
Example scenario_site_missing :
  handle (settings_github "def" 999) (world_empty {[1]})
  = (mkWorld {[1 := mkSocialApp "github" "GitHub" "abc" "def" "" ∅]} {[1]}
       ["Created new authentication provider (pk=1)"%string],
     Raise (ObjectDoesNotExist "Site")).
Proof. by vm_compute. Qed.

(** Two rows with the GitHub key: the lookup raises and nothing changes. *)
Example scenario_ambiguous :
  let t : gmap Z SocialApp :=
    {[1 := mkSocialApp "github" "a" "b" "c" "" ∅;
      2 := mkSocialApp "github" "d" "e" "f" "" ∅]} in
  handle (settings_github "def" 1) (mkWorld t {[1]} [])
  = (mkWorld t {[1]} [], Raise (MultipleObjectsReturned "SocialApp")).
Proof. by vm_compute. Qed.

(** * The claims *)

(** C1, as amended. For each of the six providers whose client id and
    secret are both set, a run of [handle] that ends without an exception
    leaves exactly one [SocialApp] row with that provider key, and the
    row's [client_id] and [secret] are the configured values. *)
Theorem C1_synced_record_matches_settings s w p c k :
  (handle s w).2 = Ok () →
  setting_client_id s p = Some c →
  setting_secret s p = Some k →
  ∃ k0 r, rows (provider_id p) (socialapps (handle s w).1) = {[k0 := r]} ∧
          client_id r = c ∧ secret r = k.
Proof.
  intros Hok Hc Hk. rewrite handle_sync_all in *.
  destruct (sync_all s all_providers w) as [w' o] eqn:Hrun. simpl in *. subst o.
  destruct (sync_all_ok _ _ _ _ NoDup_all_providers Hrun p) as (k0 & r & Hr & Hcr & _).
  { apply elem_of_all_providers. }
  { apply present_true. eauto. }
  exists k0, r. destruct Hcr as (_ & _ & Hc' & Hk'). split; [done|]. split; congruence.
Qed.

Lemma C1_synced_record_matches_settings_witness :
  (handle (settings_github "def" 1) (world_empty {[1]})).2 = Ok () ∧
  ∃ k0 r,
    rows (provider_id GitHub)
      (socialapps (handle (settings_github "def" 1) (world_empty {[1]})).1)
    = {[k0 := r]} ∧ client_id r = "abc"%string ∧ secret r = "def"%string.
Proof.
  split; [by vm_compute|].
  apply (C1_synced_record_matches_settings (settings_github "def" 1)
           (world_empty {[1]}) GitHub "abc" "def");
    [by vm_compute|reflexivity|reflexivity].
Defined.

(** C1, as stated, fails when an earlier slot aborts the run: with FxA and
    GitHub configured, an empty table and no site 999, the FxA block raises
    [Site.DoesNotExist] and the GitHub block never runs, so no row with the
    GitHub key exists after the run. *)
Lemma C1_counterexample :
  setting_client_id (settings_fxa_github 999) GitHub = Some "abc"%string ∧
  setting_secret (settings_fxa_github 999) GitHub = Some "def"%string ∧
  (handle (settings_fxa_github 999) (world_empty ∅)).2
    = Raise (ObjectDoesNotExist "Site") ∧
  ¬ ∃ k0 r,
      rows (provider_id GitHub)
        (socialapps (handle (settings_fxa_github 999) (world_empty ∅)).1)
      = {[k0 := r]}.
Proof.
  split_and!; [reflexivity|reflexivity|by vm_compute|].
  intros (k0 & r & Hr).
  assert (rows (provider_id GitHub)
            (socialapps (handle (settings_fxa_github 999) (world_empty ∅)).1) = ∅)
    as He by (by vm_compute).
  rewrite He in Hr. symmetry in Hr. by apply map_non_empty_singleton in Hr.
Qed.

(** C2. If the client id or the secret of a provider is not set, the rows
    with that provider key are the same after [handle] as before it: none
    is created, and every existing one is unchanged in every column and in
    its sites. *)
Theorem C2_unconfigured_provider_untouched s w p :
  setting_client_id s p = None ∨ setting_secret s p = None →
  rows (provider_id p) (socialapps (handle s w).1)
  = rows (provider_id p) (socialapps w).
Proof.
  intros Habs. apply present_false in Habs. rewrite handle_sync_all.
  apply sync_all_frame. intros q _ Hq Heq. apply provider_id_inj in Heq.
  subst q. congruence.
Qed.

Lemma C2_unconfigured_provider_untouched_witness :
  let r := mkSocialApp "fxa" "Firefox" "old" "older" "k" ∅ in
  (setting_client_id (settings_github "def" 1) FxA = None ∨
   setting_secret (settings_github "def" 1) FxA = None) ∧
  rows (provider_id FxA)
    (socialapps (handle (settings_github "def" 1) (world_one r {[1]})).1)
  = rows (provider_id FxA) (socialapps (world_one r {[1]})).
Proof.
  intros r. split; [by left|].
  apply (C2_unconfigured_provider_untouched (settings_github "def" 1)
           (world_one r {[1]}) FxA).
  left. reflexivity.
Defined.

(** C3, as amended. Running [handle] a second time with the same settings
    leaves the table the first run left, and ends as the first run ended.
    Every line the second run writes is an [Updated] line, never a
    [Created] one; and when the first run ended without an exception, the
    second writes exactly one such line for every configured provider, in
    order, each naming the provider's row. *)
Theorem C3_second_run_changes_nothing s w :
  socialapps (handle s (handle s w).1).1 = socialapps (handle s w).1 ∧
  (handle s (handle s w).1).2 = (handle s w).2 ∧
  ∃ lines : list string,
    stdout (handle s (handle s w).1).1 = stdout (handle s w).1 ++ lines ∧
    Forall is_Updated_line lines ∧
    ((handle s w).2 = Ok () →
     Forall2 (λ p line, ∃ (k : Z) (r : SocialApp),
                rows (provider_id p) (socialapps (handle s w).1) = {[k := r]} ∧
                line = Updated_line k)
       (configured_slots s all_providers) lines).
Proof.
  rewrite !handle_sync_all.
  destruct (sync_all s all_providers w) as [[t T out] o] eqn:Hrun.
  pose proof (sync_all_leaves s _ NoDup_all_providers _ _ _ Hrun) as Hl.
  cbn [fst snd socialapps site_table stdout] in *. destruct o as [[]|e].
  - destruct (settled_run s _ t T Hl out) as (lines & -> & Hu & Hf).
    cbn [fst snd socialapps stdout]. split_and!; [done|done|].
    exists lines. by split_and!.
  - destruct Hl as (l1 & p & l2 & Hall & Hl1 & Hp). rewrite Hall, sync_all_app.
    destruct (settled_run s _ t T Hl1 out) as (lines1 & -> & Hu1 & _).
    rewrite sync_all_cons.
    destruct (stuck_step s p t T (out ++ lines1) e Hp) as (lines2 & -> & Hu2).
    cbn [fst snd socialapps stdout]. split_and!; [done|done|].
    exists (lines1 ++ lines2).
    rewrite app_assoc. split_and!; [done|by apply Forall_app|done].
Qed.

Lemma C3_second_run_changes_nothing_witness :
  let s := settings_github "def" 1 in
  let w := world_empty {[1]} in
  (handle s w).2 = Ok () ∧
  socialapps (handle s (handle s w).1).1 = socialapps (handle s w).1 ∧
  ∃ lines : list string,
    stdout (handle s (handle s w).1).1 = stdout (handle s w).1 ++ lines ∧
    Forall2 (λ p line, ∃ (k : Z) (r : SocialApp),
               rows (provider_id p) (socialapps (handle s w).1) = {[k := r]} ∧
               line = Updated_line k)
      (configured_slots s all_providers) lines.
Proof.
  intros s w.
  destruct (C3_second_run_changes_nothing s w) as (Ht & _ & lines & Hout & _ & Hf).
  split; [by vm_compute|]. split; [exact Ht|].
  exists lines. split; [exact Hout|]. apply Hf. by vm_compute.
Defined.

(** C3, as stated, fails when the runs fail: with FxA and GitHub
    configured, an empty table and no site 999, both runs stop in the FxA
    block. The second run writes one line, for FxA; GitHub, whose values
    are set, is reported neither as updated nor at all. *)
Lemma C3_counterexample :
  let s := settings_fxa_github 999 in
  let w := world_empty ∅ in
  configured_slots s all_providers = [FxA; GitHub] ∧
  stdout (handle s w).1 = ["Created new authentication provider (pk=1)"%string] ∧
  stdout (handle s (handle s w).1).1
  = stdout (handle s w).1 ++ ["Updated existing authentication provider (pk=1)"%string] ∧
  ¬ ∃ lines : list string,
      stdout (handle s (handle s w).1).1 = stdout (handle s w).1 ++ lines ∧
      Forall2 (λ (p : Provider) line, is_Updated_line line)
        (configured_slots s all_providers) lines.
Proof.
  intros s w.
  assert (configured_slots s all_providers = [FxA; GitHub]) as Hc by (by vm_compute).
  assert (stdout (handle s w).1
          = ["Created new authentication provider (pk=1)"%string]) as H1
    by (by vm_compute).
  assert (stdout (handle s (handle s w).1).1
          = stdout (handle s w).1
            ++ ["Updated existing authentication provider (pk=1)"%string]) as H2
    by (by vm_compute).
  split_and!; [done|done|done|].
  intros (lines & Hout & Hf). rewrite H2 in Hout.
  apply app_inv_head in Hout. subst lines. rewrite Hc in Hf.
  apply Forall2_length in Hf. discriminate Hf.
Qed.

(** C4. A row that exists keeps its provider key through every run of
    [handle], and through every part of a run: the row is still there
    under its primary key, with the provider key it had. The update branch
    writes the key it looked the row up by. *)
Theorem C4_provider_key_never_changes s l w (k : Z) (r : SocialApp) :
  socialapps w !! k = Some r →
  (∃ r', socialapps (handle s w).1 !! k = Some r' ∧ provider r' = provider r) ∧
  (∃ r', socialapps (sync_all s l w).1 !! k = Some r' ∧ provider r' = provider r).
Proof.
  intros Hk. split.
  - rewrite handle_sync_all.
    destruct (sync_all_evolves s all_providers w k r Hk) as (r' & Hr' & Hp & _).
    eauto.
  - destruct (sync_all_evolves s l w k r Hk) as (r' & Hr' & Hp & _). eauto.
Qed.

Lemma C4_provider_key_never_changes_witness :
  let r := mkSocialApp "github" "Old name" "old" "older" "k" ∅ in
  let s := settings_github "def" 1 in
  let w := world_one r {[1]} in
  socialapps w !! 5 = Some r ∧
  (∃ r', socialapps (handle s w).1 !! 5 = Some r' ∧ provider r' = provider r) ∧
  (∃ r', socialapps (sync_all s [GitHub] w).1 !! 5 = Some r' ∧
         provider r' = provider r).
Proof.
  intros r s w. split; [reflexivity|].
  apply (C4_provider_key_never_changes s [GitHub] w 5 r). reflexivity.
Defined.

(** C5. Let the run reach the block of a configured provider (the blocks
    before it ended without an exception), let the upsert of that block
    succeed and leave a row without sites, and let no site have the
    configured default identifier. Then [handle] ends with
    [Site.DoesNotExist], propagated as it is; the final world is the one
    right after the upsert, so nothing was attached and no later block
    ran; and that world holds the row with the candidate record and has
    the report line as its last line. *)
Theorem C5_missing_site_aborts_after_upsert
    s w before p after w1 c k w2 app :
  all_providers = before ++ p :: after →
  sync_all s before w = (w1, Ok ()) →
  setting_client_id s p = Some c →
  setting_secret s p = Some k →
  upsert (dict (display_name p) (provider_id p) c k) w1 = (w2, Ok app) →
  sites_count app w2 = (w2, Ok 0%nat) →
  SITE_ID s ∉ site_table w →
  handle s w = (w2, Raise (ObjectDoesNotExist "Site")) ∧
  ∃ (k0 : Z) (r : SocialApp) (line : string),
    pk app = Some k0 ∧
    socialapps w2 !! k0 = Some r ∧
    provider r = provider_id p ∧ client_id r = c ∧ secret r = k ∧
    stdout w2 = stdout w1 ++ [line] ∧
    (line = Updated_line k0 ∨ line = Created_line k0).
Proof.
  intros Hall Hbefore Hc Hk Hup Hcount Hsite. split.
  - rewrite handle_sync_all, Hall, sync_all_app, Hbefore, sync_all_cons.
    rewrite (sync_one_present _ _ _ _ Hc Hk).
    unfold update_provider, mbind, M_bind. rewrite Hup.
    unfold ensure_site, mbind, M_bind. rewrite Hcount.
    rewrite decide_True by done. unfold Site_objects_get.
    assert (site_table w2 = site_table w) as ->.
    { assert (site_table w1 = site_table w) as <-.
      { replace w1 with (sync_all s before w).1 by (by rewrite Hbefore).
        apply sync_all_site_table. }
      destruct (lookup_outcome_total (provider_id p) (socialapps w1))
        as [He|k0 r He|Hs].
      - rewrite (upsert_missing _ _ _ _ _ He) in Hup. by injection Hup as <- _.
      - rewrite (upsert_found _ _ _ _ _ _ _ He) in Hup. by injection Hup as <- _.
      - rewrite (upsert_several _ _ _ _ _ Hs) in Hup. by injection Hup as <-. }
    by rewrite decide_False.
  - destruct (lookup_outcome_total (provider_id p) (socialapps w1))
      as [He|k0 r He|Hs].
    + rewrite (upsert_missing _ _ _ _ _ He) in Hup. injection Hup as <- <-.
      eexists _, _, _. simpl. rewrite lookup_insert_eq.
      split_and!; [done|done|done|done|done|done|by right].
    + rewrite (upsert_found _ _ _ _ _ _ _ He) in Hup. injection Hup as <- <-.
      eexists _, _, _. simpl. rewrite lookup_insert_eq.
      split_and!; [done|done|done|done|done|done|by left].
    + rewrite (upsert_several _ _ _ _ _ Hs) in Hup. discriminate Hup.
Qed.

Lemma C5_missing_site_aborts_after_upsert_witness :
  let r := mkSocialApp "github" "Old name" "old" "older" "k" ∅ in
  let w := world_one r {[1]} in
  let w2 := mkWorld {[5 := mkSocialApp "github" "GitHub" "abc" "def" "k" ∅]}
              {[1]} ["Updated existing authentication provider (pk=5)"%string] in
  handle (settings_github "def" 999) w = (w2, Raise (ObjectDoesNotExist "Site")) ∧
  ∃ (k0 : Z) (r : SocialApp) (line : string),
    Some 5 = Some k0 ∧
    socialapps w2 !! k0 = Some r ∧
    provider r = provider_id GitHub ∧ client_id r = "abc"%string ∧
    secret r = "def"%string ∧
    stdout w2 = stdout w ++ [line] ∧
    (line = Updated_line k0 ∨ line = Created_line k0).
Proof.
  intros r w w2.
  apply (C5_missing_site_aborts_after_upsert (settings_github "def" 999) w
           [FxA] GitHub [GitLab; Google; Keycloak; Discord] w "abc" "def" w2
           (mkInstance (Some 5) "github" "GitHub" "abc" "def" "k")).
  - reflexivity.
  - reflexivity.
  - reflexivity.
  - reflexivity.
  - by vm_compute.
  - by vm_compute.
  - by vm_compute.
Defined.

(** C6. No run of [handle] clears, shrinks or replaces a non-empty set of
    sites: every row keeps the sites it had, gains at most the default
    site, and gains nothing when it had a site. After a run that ends
    without an exception, every row of a configured provider has a site. *)
Theorem C6_sites_only_grow s w :
  (∀ (k : Z) (r : SocialApp), socialapps w !! k = Some r →
     ∃ r', socialapps (handle s w).1 !! k = Some r' ∧
           sites r ⊆ sites r' ∧ sites r' ⊆ sites r ∪ {[SITE_ID s]} ∧
           (sites r ≠ ∅ → sites r' = sites r)) ∧
  ((handle s w).2 = Ok () →
   ∀ p (k : Z) (r : SocialApp), present s p = true →
     socialapps (handle s w).1 !! k = Some r → provider r = provider_id p →
     sites r ≠ ∅).
Proof.
  rewrite handle_sync_all. split.
  - intros k r Hk.
    destruct (sync_all_evolves s all_providers w k r Hk)
      as (r' & Hr' & _ & _ & Hi & Hb & Hn).
    eauto.
  - intros Hok p k r Hp Hk Hpr.
    destruct (sync_all s all_providers w) as [w' o] eqn:Hrun. simpl in *. subst o.
    destruct (sync_all_ok _ _ _ _ NoDup_all_providers Hrun p
                (elem_of_all_providers p) Hp) as (k0 & r0 & Hr & _ & Hne).
    assert (rows (provider_id p) (socialapps w') !! k = Some r) as H
      by (by apply rows_lookup).
    rewrite Hr in H. apply lookup_singleton_Some in H as [_ <-]. done.
Qed.

Lemma C6_sites_only_grow_witness :
  let r := mkSocialApp "github" "Old name" "old" "older" "k" {[7]} in
  let s := settings_github "def" 1 in
  let w := world_one r {[1]} in
  socialapps w !! 5 = Some r ∧ (handle s w).2 = Ok () ∧
  (∃ r', socialapps (handle s w).1 !! 5 = Some r' ∧
         sites r ⊆ sites r' ∧ sites r' ⊆ sites r ∪ {[SITE_ID s]} ∧
         (sites r ≠ ∅ → sites r' = sites r)) ∧
  (∀ p (k : Z) (r : SocialApp), present s p = true →
     socialapps (handle s w).1 !! k = Some r → provider r = provider_id p →
     sites r ≠ ∅).
Proof.
  intros r s w.
  split; [reflexivity|]. split; [by vm_compute|].
  destruct (C6_sites_only_grow s w) as [H1 H2]. split.
  - apply (H1 5 r). reflexivity.
  - apply H2. by vm_compute.
Defined.

(** C7. The blocks run in the order FxA, GitHub, GitLab, Google, Keycloak,
    Discord: [handle] is the run over that list, and the lines it writes
    are, one for one and in that order, the reports of the configured
    providers it got through (all of them when the run ends without an
    exception), each naming the row of its provider. *)
Theorem C7_report_lines_in_fixed_order s w :
  all_providers = [FxA; GitHub; GitLab; Google; Keycloak; Discord] ∧
  handle s w = sync_all s all_providers w ∧
  ∃ (done : list Provider) (lines : list string),
    done `prefix_of` configured_slots s all_providers ∧
    ((handle s w).2 = Ok () → done = configured_slots s all_providers) ∧
    stdout (handle s w).1 = stdout w ++ lines ∧
    Forall2 (λ p line,
               ∃ (k : Z) (r : SocialApp),
                 socialapps (handle s w).1 !! k = Some r ∧
                 provider r = provider_id p ∧
                 (line = Updated_line k ∨ line = Created_line k))
      done lines.
Proof.
  split; [done|]. split; [apply handle_sync_all|]. rewrite handle_sync_all.
  destruct (sync_all_trace s all_providers NoDup_all_providers w)
    as (done & lines & Hpre & Hout & Hall & Hok).
  exists done, lines. split_and!; [done|done|done|].
  eapply Forall2_impl; [exact Hall|].
  intros p line [_ (k & r & Hr & _ & Hl)]. exists k, r.
  apply rows_singleton_lookup in Hr as [Hr Hp]. split_and!; [done|done|].
  destruct Hl as [[_ ->]|[_ ->]]; auto.
Qed.

Lemma C7_report_lines_in_fixed_order_witness :
  let s := settings_fxa_github 1 in
  let w := world_empty {[1]} in
  (handle s w).2 = Ok () ∧
  stdout (handle s w).1
  = ["Created new authentication provider (pk=1)"%string;
     "Created new authentication provider (pk=2)"%string] ∧
  ∃ lines : list string,
    stdout (handle s w).1 = stdout w ++ lines ∧
    Forall2 (λ p line,
               ∃ (k : Z) (r : SocialApp),
                 socialapps (handle s w).1 !! k = Some r ∧
                 provider r = provider_id p ∧
                 (line = Updated_line k ∨ line = Created_line k))
      [FxA; GitHub] lines.
Proof.
  intros s w.
  assert ((handle s w).2 = Ok ()) as Hrun by (by vm_compute).
  split; [exact Hrun|]. split; [by vm_compute|].
  destruct (C7_report_lines_in_fixed_order s w)
    as (_ & _ & done & lines & _ & Hok & Hout & Hf).
  exists lines. split; [exact Hout|].
  rewrite (Hok Hrun) in Hf. exact Hf.
Defined.

(** C8. [handle] writes exactly one line for each configured provider it
    got through and none for the others. The line is
    [Updated existing authentication provider (pk=k)] when the table held
    a row with the provider's key before the run, under primary key [k],
    and [Created new authentication provider (pk=k)] when it held none and
    the row was inserted under [k]; in both cases [k] is the primary key
    of the provider's row after the run. *)
Theorem C8_one_report_line_per_synced_provider s w :
  ∃ (done : list Provider) (lines : list string),
    done `prefix_of` configured_slots s all_providers ∧
    ((handle s w).2 = Ok () → done = configured_slots s all_providers) ∧
    stdout (handle s w).1 = stdout w ++ lines ∧
    Forall2 (reported s (socialapps w) (socialapps (handle s w).1)) done lines ∧
    Updated_line 1 = "Updated existing authentication provider (pk=1)"%string ∧
    Created_line 1 = "Created new authentication provider (pk=1)"%string.
Proof.
  rewrite handle_sync_all.
  destruct (sync_all_trace s all_providers NoDup_all_providers w)
    as (done & lines & Hpre & Hout & Hall & Hok).
  exists done, lines. split_and!; [done|done|done| |done|done].
  eapply Forall2_impl; [exact Hall|]. by intros p line [_ ?].
Qed.

Lemma C8_one_report_line_per_synced_provider_witness :
  let s := settings_github "xyz" 1 in
  let r := mkSocialApp "github" "GitHub" "abc" "def" "" {[1]} in
  let w := world_one r {[1]} in
  (handle s w).2 = Ok () ∧
  stdout (handle s w).1 = ["Updated existing authentication provider (pk=5)"%string] ∧
  ∃ lines : list string,
    stdout (handle s w).1 = stdout w ++ lines ∧
    Forall2 (reported s (socialapps w) (socialapps (handle s w).1)) [GitHub] lines.
Proof.
  intros s r w.
  assert ((handle s w).2 = Ok ()) as Hrun by (by vm_compute).
  split; [exact Hrun|]. split; [by vm_compute|].
  destruct (C8_one_report_line_per_synced_provider s w)
    as (done & lines & _ & Hok & Hout & Hf & _).
  exists lines. split; [exact Hout|].
  rewrite (Hok Hrun) in Hf. exact Hf.
Defined.

(** C9. The block of a provider whose one row already has a site never
    needs the default site: it ends without an exception and leaves the
    same table and output whatever the [Site] table holds. So when every
    configured provider already has its row, with at least one site,
    [handle] ends without an exception for every [Site] table, the
    configured default site in it or not. *)
Theorem C9_no_site_lookup_when_attached s (t : gmap Z SocialApp) out :
  (∀ p (k : Z) (r : SocialApp),
     rows (provider_id p) t = {[k := r]} → sites r ≠ ∅ →
     ∃ t' out', ∀ T,
       sync_one s p (mkWorld t T out) = (mkWorld t' T out', Ok ())) ∧
  ((∀ p, present s p = true →
      ∃ k r, rows (provider_id p) t = {[k := r]} ∧ sites r ≠ ∅) →
   ∃ t' out', ∀ T, handle s (mkWorld t T out) = (mkWorld t' T out', Ok ())).
Proof.
  split.
  - intros p k r. apply sync_one_attached.
  - intros H.
    destruct (sync_all_attached s all_providers t out) as (t' & out' & Hr).
    { intros p _. apply H. }
    exists t', out'. intros T. rewrite handle_sync_all. apply Hr.
Qed.

Lemma C9_no_site_lookup_when_attached_witness :
  let s := settings_github "xyz" 999 in
  let r := mkSocialApp "github" "GitHub" "abc" "def" "" {[7]} in
  handle s (mkWorld {[5 := r]} ∅ [])
  = (mkWorld {[5 := mkSocialApp "github" "GitHub" "abc" "xyz" "" {[7]}]} ∅
       ["Updated existing authentication provider (pk=5)"%string], Ok ()) ∧
  (∃ t' out', ∀ T,
     sync_one s GitHub (mkWorld {[5 := r]} T []) = (mkWorld t' T out', Ok ())) ∧
  ∃ t' out', ∀ T, handle s (mkWorld {[5 := r]} T []) = (mkWorld t' T out', Ok ()).
Proof.
  intros s r. split; [by vm_compute|].
  destruct (C9_no_site_lookup_when_attached s {[5 := r]} []) as [H1 H2]. split.
  - apply (H1 GitHub 5 r); [by vm_compute|].
    unfold r. simpl. apply (non_empty_singleton_L (C := gset Z)).
  - apply H2. intros p Hp. destruct p; try (by vm_compute in Hp).
    exists 5, r. split; [by vm_compute|]. unfold r. simpl.
    apply (non_empty_singleton_L (C := gset Z)).
Defined.

(** C10. Only [None] counts as absent. If both values of a provider are
    set and one of them is the empty string, the block of that provider is
    not skipped: it calls [update_provider] with the candidate dict.
    Whenever the lookup of that block is not ambiguous, the block leaves
    exactly one row with the provider key, and that row stores the two
    values as they are, the empty string among them; so does every run of
    [handle] that ends without an exception. *)
Theorem C10_empty_string_is_a_value s p c k :
  setting_client_id s p = Some c →
  setting_secret s p = Some k →
  c = ""%string ∨ k = ""%string →
  present s p = true ∧
  sync_one s p = update_provider s (dict (display_name p) (provider_id p) c k) ∧
  (∀ w, (sync_one s p w).2 ≠ Raise (MultipleObjectsReturned "SocialApp") →
        ∃ k0 r, rows (provider_id p) (socialapps (sync_one s p w).1) = {[k0 := r]} ∧
                client_id r = c ∧ secret r = k) ∧
  (∀ w, (handle s w).2 = Ok () →
        ∃ k0 r, rows (provider_id p) (socialapps (handle s w).1) = {[k0 := r]} ∧
                client_id r = c ∧ secret r = k).
Proof.
  intros Hc Hk _.
  assert (present s p = true) as Hp by (apply present_true; eauto).
  split_and!; [done|by apply sync_one_present| |].
  - intros w Ho.
    destruct (step_own_row _ _ _ _ _ (sync_one_spec s p w) Hp Ho)
      as (k0 & r & Hr & (_ & _ & Hc' & Hk') & _).
    exists k0, r. split; [done|]. split; congruence.
  - intros w Hok. rewrite handle_sync_all in *.
    destruct (sync_all s all_providers w) as [w' o] eqn:Hrun. simpl in *. subst o.
    destruct (sync_all_ok _ _ _ _ NoDup_all_providers Hrun p
                (elem_of_all_providers p) Hp) as (k0 & r & Hr & (_ & _ & Hc' & Hk') & _).
    exists k0, r. split; [done|]. split; congruence.
Qed.

Lemma C10_empty_string_is_a_value_witness :
  let s := settings_github "" 1 in
  let w := world_empty {[1]} in
  present s GitHub = true ∧
  handle s w =
    (mkWorld {[1 := mkSocialApp "github" "GitHub" "abc" "" "" {[1]}]} {[1]}
       ["Created new authentication provider (pk=1)"%string], Ok ()) ∧
  ∃ k0 r, rows (provider_id GitHub) (socialapps (handle s w).1) = {[k0 := r]} ∧
          client_id r = "abc"%string ∧ secret r = ""%string.
Proof.
  intros s w.
  destruct (C10_empty_string_is_a_value s GitHub "abc" "")
    as (Hp & _ & _ & Hrun); [reflexivity|reflexivity|by right|].
  split; [exact Hp|]. split; [by vm_compute|]. apply Hrun. by vm_compute.
Defined.

(** * Further properties of the command *)

(** ** When a run goes through, and what stops it *)


Lemma singleton_eq_inv (k1 k2 : Z) (r1 r2 : SocialApp) :
  ({[k1 := r1]} : gmap Z SocialApp) = {[k2 := r2]} → k1 = k2 ∧ r1 = r2.
Proof.
  intros H. apply (f_equal (λ m, m !! k1)) in H.
  rewrite lookup_singleton_eq in H. symmetry in H.
  apply lookup_singleton_Some in H as [-> ->]. done.
Qed.







(** ** The row of a slot after a run that went through *)

Lemma attach_Ok s T st :
  attach_result s T st = Ok () →
  attach s T st = if decide (st = ∅) then {[SITE_ID s]} else st.
Proof.
  unfold attach_result, attach.
  destruct (decide (st = ∅)); [|done]. by destruct (decide (SITE_ID s ∈ T)).
Qed.

Lemma step_Ok_row s p w w' c k :
  step_spec s p w w' (Ok ()) →
  setting_client_id s p = Some c → setting_secret s p = Some k →
  (∀ (k0 : Z) (r : SocialApp),
     rows (provider_id p) (socialapps w) = {[k0 := r]} →
     rows (provider_id p) (socialapps w')
     = {[k0 := synced_row s p c k (key r) (sites r)]}) ∧
  (rows (provider_id p) (socialapps w) = ∅ →
   ∃ k0 : Z, rows (provider_id p) (socialapps w')
             = {[k0 := synced_row s p c k "" ∅]}).
Proof.
  intros Hs Hc Hk. unfold synced_row.
  inversion Hs as [Hp|c' k' k1 r1 Hc' Hk' He Hw Ho|c' k' Hc' Hk' He Hw Ho|].
  - apply present_false in Hp as [Hp|Hp]; congruence.
  - assert (c' = c) as -> by congruence. assert (k' = k) as -> by congruence.
    split.
    + intros k0 r He0. rewrite He in He0.
      apply singleton_eq_inv in He0 as [-> ->].
      rewrite <-(attach_Ok _ _ _ Ho). cbn [socialapps].
      apply rows_insert_same; [done|]. by apply rows_only_singleton with r.
    + intros He0. rewrite He in He0. by apply map_non_empty_singleton in He0.
  - assert (c' = c) as -> by congruence. assert (k' = k) as -> by congruence.
    split.
    + intros k0 r He0. rewrite He in He0. symmetry in He0.
      by apply map_non_empty_singleton in He0.
    + intros _. exists (next_pk (socialapps w)).
      rewrite <-(attach_Ok _ _ _ Ho). cbn [socialapps].
      apply rows_insert_same; [done|]. by apply rows_only_empty.
Qed.

Lemma sync_all_Ok_row s l :
  NoDup l → ∀ w w' p c k, sync_all s l w = (w', Ok ()) → p ∈ l →
  setting_client_id s p = Some c → setting_secret s p = Some k →
  (∀ (k0 : Z) (r : SocialApp),
     rows (provider_id p) (socialapps w) = {[k0 := r]} →
     rows (provider_id p) (socialapps w')
     = {[k0 := synced_row s p c k (key r) (sites r)]}) ∧
  (rows (provider_id p) (socialapps w) = ∅ →
   ∃ k0 : Z, rows (provider_id p) (socialapps w')
             = {[k0 := synced_row s p c k "" ∅]}).
Proof.
  induction l as [|q l IH]; intros Hnd w w' p c k Hrun Hin Hc Hk.
  { by apply elem_of_nil in Hin. }
  apply NoDup_cons in Hnd as [Hq Hnd]. rewrite sync_all_cons in Hrun.
  pose proof (sync_one_spec s q w) as Hs.
  destruct (sync_one s q w) as [w1 [[]|e]]; cbn [fst snd] in Hs; [|done].
  apply elem_of_cons in Hin as [->|Hin].
  - assert (rows (provider_id q) (socialapps w')
            = rows (provider_id q) (socialapps w1)) as ->.
    { replace w' with (sync_all s l w1).1 by (by rewrite Hrun).
      apply sync_all_frame. intros p' Hp' _ Heq. apply provider_id_inj in Heq.
      by subst. }
    by apply step_Ok_row.
  - assert (rows (provider_id p) (socialapps w1)
            = rows (provider_id p) (socialapps w)) as <-.
    { eapply step_frame; [exact Hs|]. intros Heq.
      apply provider_id_inj in Heq. by subst. }
    by apply (IH Hnd w1).
Qed.

Lemma sync_all_none_configured s l w :
  (∀ p, p ∈ l → present s p = false) → sync_all s l w = (w, Ok ()).
Proof.
  induction l as [|p l IH]; intros H; [done|].
  rewrite sync_all_cons, (sync_one_absent s p) by (apply H, list_elem_of_here).
  cbn. apply IH. intros q Hq. by apply H, list_elem_of_further.
Qed.

(** ** Properties *)



(** X3. After a run of [handle] that ends without an exception, the row of
    a configured provider that had one row is that row rewritten: provider
    key, display name, client id and secret from the candidate, the [key]
    column as it was, the sites as they were, or the default site alone
    when there were none; it keeps its primary key. *)
Theorem X3_existing_row_rewritten s w p c k (k0 : Z) (r : SocialApp) :
  (handle s w).2 = Ok () →
  setting_client_id s p = Some c → setting_secret s p = Some k →
  rows (provider_id p) (socialapps w) = {[k0 := r]} →
  rows (provider_id p) (socialapps (handle s w).1)
  = {[k0 := mkSocialApp (provider_id p) (display_name p) c k (key r)
             (if decide (sites r = ∅) then {[SITE_ID s]} else sites r)]}.
Proof.
  rewrite handle_sync_all. intros Hok Hc Hk Hr.
  destruct (sync_all s all_providers w) as [w' o] eqn:Hrun. cbn [fst snd] in *.
  subst o.
  destruct (sync_all_Ok_row s _ NoDup_all_providers _ _ p c k Hrun
              (elem_of_all_providers p) Hc Hk) as [H _].
  by apply H.
Qed.

(** X4. After a run of [handle] that ends without an exception, a
    configured provider that had no row has exactly one: the candidate
    record with a blank [key] column, attached to the default site and to
    no other. *)
Theorem X4_missing_row_created s w p c k :
  (handle s w).2 = Ok () →
  setting_client_id s p = Some c → setting_secret s p = Some k →
  rows (provider_id p) (socialapps w) = ∅ →
  ∃ k0 : Z,
    rows (provider_id p) (socialapps (handle s w).1)
    = {[k0 := mkSocialApp (provider_id p) (display_name p) c k ""
               {[SITE_ID s]}]}.
Proof.
  rewrite handle_sync_all. intros Hok Hc Hk Hr.
  destruct (sync_all s all_providers w) as [w' o] eqn:Hrun. cbn [fst snd] in *.
  subst o.
  destruct (sync_all_Ok_row s _ NoDup_all_providers _ _ p c k Hrun
              (elem_of_all_providers p) Hc Hk) as [_ H].
  destruct (H Hr) as [k0 Hk0]. exists k0. rewrite Hk0. unfold synced_row.
  by rewrite decide_True.
Qed.

(** X5. [handle] leaves alone every row whose provider key is not the key
    of a configured provider, the keys of other applications among them:
    the rows with such a key are the same after the run as before, in
    every column and in their sites, however the run ends. *)
Theorem X5_other_provider_keys_untouched s w (q : string) :
  (∀ p, present s p = true → provider_id p ≠ q) →
  rows q (socialapps (handle s w).1) = rows q (socialapps w).
Proof.
  intros H. rewrite handle_sync_all. apply sync_all_frame.
  intros p _. apply H.
Qed.

(** X6. [handle] only reads the [Site] table: it is the same after every
    run, however the run ends. *)
Theorem X6_site_table_read_only s w :
  site_table (handle s w).1 = site_table w.
Proof. rewrite handle_sync_all. apply sync_all_site_table. Qed.

(** X7. [handle] never writes the [key] column: every row keeps the value
    it had there, also the rows it updates, however the run ends. *)
Theorem X7_key_column_kept s w (k0 : Z) (r : SocialApp) :
  socialapps w !! k0 = Some r →
  ∃ r', socialapps (handle s w).1 !! k0 = Some r' ∧ key r' = key r.
Proof.
  intros Hk. rewrite handle_sync_all.
  destruct (sync_all_evolves s all_providers w k0 r Hk) as (r' & Hr' & _ & Hkey & _).
  eauto.
Qed.

(** X8. With no provider configured (of every pair at least one value is
    [None]), [handle] does nothing: no row changes, no line is written,
    the default site is not looked up, and the run ends without an
    exception even when that site does not exist. *)
Theorem X8_nothing_configured_is_noop s w :
  (∀ p, setting_client_id s p = None ∨ setting_secret s p = None) →
  handle s w = (w, Ok ()).
Proof.
  intros H. rewrite handle_sync_all. apply sync_all_none_configured.
  intros p _. by apply present_false.
Qed.

(** X9. [update_provider] on a dict without a ["provider"] entry raises
    [KeyError] from [data["provider"]]: the [except] clause does not catch
    it, and nothing has been looked up, written or printed. *)
Theorem X9_update_provider_without_provider_key s
    (data : list (string * string)) w :
  "provider"%string ∉ data.*1 →
  update_provider s data w = (w, Raise (KeyError "provider")).
Proof.
  intros Hnot.
  assert (list_find (λ kv : string * string, kv.1 = "provider"%string) data = None)
    as Hfind.
  { apply list_find_None, Forall_forall. intros kv Hkv Heq. apply Hnot.
    rewrite <-Heq. apply list_elem_of_fmap. by exists kv. }
  unfold update_provider, upsert, try_except_ObjectDoesNotExist, mbind, M_bind,
    getitem.
  by rewrite Hfind.
Qed.

(** X10. [update_provider] on a dict whose provider key is on two rows or
    more raises [SocialApp.MultipleObjectsReturned]: the [except] clause,
    which is for [ObjectDoesNotExist], does not turn it into a create, and
    no row is written, no line printed. *)
Theorem X10_update_provider_ambiguous s (data : list (string * string)) w
    (v : string) :
  getitem data "provider" w = (w, Ok v) →
  (2 ≤ size (rows v (socialapps w)))%nat →
  update_provider s data w = (w, Raise (MultipleObjectsReturned "SocialApp")).
Proof.
  intros Hget Hs.
  unfold update_provider, upsert, try_except_ObjectDoesNotExist, mbind, M_bind.
  by rewrite Hget, (get_several _ _ Hs).
Qed.

(** X11. A run of [handle] that ends with [Site.DoesNotExist] leaves the
    row it was working on behind: some configured provider then has
    exactly one row, with the candidate record and no site. *)
Theorem X11_site_failure_leaves_row_without_site s w :
  (handle s w).2 = Raise (ObjectDoesNotExist "Site") →
  ∃ p (k : Z) (r : SocialApp),
    present s p = true ∧
    rows (provider_id p) (socialapps (handle s w).1) = {[k := r]} ∧
    configured_row s p r ∧ sites r = ∅ ∧
    (SITE_ID s ∉ site_table w).
Proof.
  rewrite handle_sync_all. intros He.
  destruct (sync_all s all_providers w) as [w' o] eqn:Hrun. cbn [fst snd] in *.
  subst o.
  pose proof (sync_all_leaves s _ NoDup_all_providers _ _ _ Hrun)
    as (l1 & p & l2 & _ & _ & Hp & [[Habs _]|(_ & Hout & k & r & Hr & Hc & Hs)]);
    [done|].
  exists p, k, r. split_and!; [done|done|done|done|].
  replace w' with (sync_all s all_providers w).1 in Hout by (by rewrite Hrun).
  by rewrite sync_all_site_table in Hout.
Qed.

(** ** The properties at sample inputs *)



Lemma X3_existing_row_rewritten_witness :
  let s := settings_github "xyz" 1 in
  let r := mkSocialApp "github" "Old name" "old" "older" "k" ∅ in
  let w := world_one r {[1]} in
  rows (provider_id GitHub) (socialapps (handle s w).1)
  = {[5 := mkSocialApp "github" "GitHub" "abc" "xyz" "k" {[1]}]}.
Proof.
  intros s r w.
  apply (X3_existing_row_rewritten s w GitHub "abc" "xyz" 5 r).
  - by vm_compute.
  - reflexivity.
  - reflexivity.
  - by vm_compute.
Defined.

Lemma X4_missing_row_created_witness :
  let s := settings_github "def" 1 in
  let w := world_empty {[1]} in
  ∃ k0 : Z,
    rows (provider_id GitHub) (socialapps (handle s w).1)
    = {[k0 := mkSocialApp "github" "GitHub" "abc" "def" "" {[1]}]}.
Proof.
  intros s w. apply (X4_missing_row_created s w GitHub "abc" "def").
  - by vm_compute.
  - reflexivity.
  - reflexivity.
  - by vm_compute.
Defined.

Lemma X5_other_provider_keys_untouched_witness :
  let s := settings_github "def" 1 in
  let r := mkSocialApp "twitter" "Twitter" "tid" "tsecret" "tkey" ∅ in
  let w := world_one r {[1]} in
  rows "twitter" (socialapps (handle s w).1) = {[5 := r]}.
Proof.
  intros s r w.
  rewrite (X5_other_provider_keys_untouched s w "twitter"); [by vm_compute|].
  intros p Hp. destruct p; first [by vm_compute in Hp | discriminate].
Defined.

Lemma X7_key_column_kept_witness :
  let s := settings_github "def" 1 in
  let r := mkSocialApp "github" "Old name" "old" "older" "k" ∅ in
  let w := world_one r {[1]} in
  ∃ r', socialapps (handle s w).1 !! 5 = Some r' ∧ key r' = "k"%string.
Proof.
  intros s r w. apply (X7_key_column_kept s w 5 r). reflexivity.
Defined.

Lemma X8_nothing_configured_is_noop_witness :
  let s := mkSettings (Some "only the id"%string) None None (Some "only the secret"%string)
             None None None None None None None None 999 in
  let w := world_one (mkSocialApp "fxa" "FxA" "a" "b" "" ∅) ∅ in
  handle s w = (w, Ok ()).
Proof.
  intros s w. apply (X8_nothing_configured_is_noop s w).
  intros p. destruct p; first [by left | by right].
Defined.

Lemma X9_update_provider_without_provider_key_witness :
  let data := [("name", "GitHub"); ("client_id", "abc"); ("secret", "def")]%string in
  let w := world_empty {[1]} in
  update_provider (settings_github "def" 1) data w
  = (w, Raise (KeyError "provider")).
Proof.
  intros data w.
  apply (X9_update_provider_without_provider_key (settings_github "def" 1) data w).
  unfold data. simpl. intros H.
  repeat (apply elem_of_cons in H as [H|H]; [discriminate H|]).
  by apply elem_of_nil in H.
Defined.

Lemma X10_update_provider_ambiguous_witness :
  let t : gmap Z SocialApp :=
    {[1 := mkSocialApp "github" "a" "b" "c" "" ∅;
      2 := mkSocialApp "github" "d" "e" "f" "" {[1]}]} in
  let w := mkWorld t {[1]} [] in
  update_provider (settings_github "def" 1) (dict "GitHub" "github" "abc" "def") w
  = (w, Raise (MultipleObjectsReturned "SocialApp")).
Proof.
  intros t w.
  apply (X10_update_provider_ambiguous (settings_github "def" 1)
           (dict "GitHub" "github" "abc" "def") w "github").
  - reflexivity.
  - by vm_compute.
Defined.

Lemma X11_site_failure_leaves_row_without_site_witness :
  let s := settings_github "def" 999 in
  let w := world_empty {[1]} in
  ∃ p (k : Z) (r : SocialApp),
    present s p = true ∧
    rows (provider_id p) (socialapps (handle s w).1) = {[k := r]} ∧
    configured_row s p r ∧ sites r = ∅ ∧
    (SITE_ID s ∉ site_table w).
Proof.
  intros s w. apply (X11_site_failure_leaves_row_without_site s w).
  by vm_compute.
Defined.
